(** * webrepl.py: address resolution, client-page provisioning and the
      connect / authenticate / ready handshake

    A shallow embedding of [src/webrepl.py].  Python strings are
    [String.string], Python ints are [Z], the seconds passed to
    [time.sleep] are rationals.  The browser's terminal element is an
    oracle answering the successive reads of [element.text]; every other
    effect (printing, sleeping, keystrokes, browser calls) is appended to
    a chronological trace.  The client page is a file opened in text mode:
    reading maps every line end to a newline and writing emits the
    platform's line separator.  [lib.helper.dumpArgs] and
    [lib.helper.debug] only log, so they leave no mark here; the arguments
    handed to [debug] are still evaluated. *)

From Stdlib Require Import String Ascii List ZArith QArith Lia Bool.
From Stdlib Require Import DecimalString DecimalZ.
Import ListNotations.

#[local] Open Scope string_scope.
#[local] Open Scope Z_scope.

(* ------------------------------------------------------------------ *)
(** ** Python string operations used by the program *)

Definition nl : string := String "010"%char EmptyString.
Definition dq : string := String "034"%char EmptyString.
Definition cr : string := String "013"%char EmptyString.

(** [s.startswith(p)] *)
Fixpoint startswith (s p : string) {struct p} : bool :=
  match p with
  | EmptyString => true
  | String a p' =>
      match s with
      | EmptyString => false
      | String b s' => Ascii.eqb a b && startswith s' p'
      end
  end.

(** [sub in s] *)
Fixpoint str_in (sub s : string) : bool :=
  startswith s sub ||
  match s with
  | EmptyString => false
  | String _ s' => str_in sub s'
  end.

(** [s.split(sep, maxsplit)] for a one-character separator. *)
Fixpoint split (sep : ascii) (s : string) (maxsplit : nat) : list string :=
  match s with
  | EmptyString => [EmptyString]
  | String c s' =>
      match maxsplit with
      | O => [s]
      | S m =>
          if Ascii.eqb c sep then EmptyString :: split sep s' m
          else match split sep s' maxsplit with
               | [] => [String c EmptyString]
               | h :: t => String c h :: t
               end
      end
  end.

(** [f.readlines()]: the text cut after every newline, terminators kept. *)
Fixpoint readlines (s : string) : list string :=
  match s with
  | EmptyString => []
  | String c s' =>
      if Ascii.eqb c "010" then String c EmptyString :: readlines s'
      else match readlines s' with
           | [] => [String c EmptyString]
           | l :: ls => String c l :: ls
           end
  end.

(** The chunks one after the other, as text. *)
Definition joined (chunks : list string) : string :=
  fold_right String.append EmptyString chunks.

(** The two conventions of [os.linesep]. *)
Inductive platform : Type := Posix | Windows.

Definition linesep (os : platform) : string :=
  match os with
  | Posix => nl
  | Windows => cr ++ nl
  end.

(** Reading in text mode ([open(path, "r")], [newline] left at its default):
    a carriage return followed by a newline, and a lone carriage return,
    both arrive as one newline.  [after_cr] tells that the character before
    was a carriage return.  Characters stand for the decoded text. *)
Fixpoint universal_newlines (after_cr : bool) (s : string) : string :=
  match s with
  | EmptyString => EmptyString
  | String c s' =>
      if Ascii.eqb c "013" then String "010" (universal_newlines true s')
      else if Ascii.eqb c "010" && after_cr then universal_newlines false s'
      else String c (universal_newlines false s')
  end.

Definition read_text (file : string) : string := universal_newlines false file.

(** Writing in text mode ([open(path, "w")]): every newline leaves as
    [os.linesep]. *)
Fixpoint write_text (os : platform) (s : string) : string :=
  match s with
  | EmptyString => EmptyString
  | String c s' =>
      if Ascii.eqb c "010" then linesep os ++ write_text os s'
      else String c (write_text os s')
  end.

(** What successive [write] calls leave in a freshly truncated file. *)
Definition written (os : platform) (chunks : list string) : string :=
  fold_right (fun chunk file => write_text os chunk ++ file) EmptyString
             chunks.

(** Values a [port] argument can hold: a string or an int. *)
Inductive pyval : Type :=
| PyStr (s : string)
| PyInt (z : Z).

(** [not v] is false exactly on the truthy values. *)
Definition truthy (v : pyval) : bool :=
  match v with
  | PyStr EmptyString => false
  | PyStr _ => true
  | PyInt z => negb (z =? 0)
  end.

Definition str_of_int (z : Z) : string := NilZero.string_of_int (Z.to_int z).

(** How an f-string renders [{v}]. *)
Definition port_text (v : pyval) : string :=
  match v with
  | PyStr s => s
  | PyInt z => str_of_int z
  end.

Inductive exn : Type := ValueError.

Inductive result (A : Type) : Type :=
| Ok (a : A)
| Raise (e : exn).
Arguments Ok {A} a.
Arguments Raise {A} e.

(* ------------------------------------------------------------------ *)
(** ** [ip_to_url] *)

(** [ip, port = parts]: exactly two values, or [ValueError]. *)
Definition unpack2 (parts : list string) : result (string * string) :=
  match parts with
  | [a; b] => Ok (a, b)
  | _ => Raise ValueError
  end.

(** Lines 102-106: the [(ip, port)] pair in scope when the URL is
    formatted; this pair is what the specification calls the Endpoint. *)
Definition resolve (ip : string) (port : pyval) : result (string * pyval) :=
  if str_in ":" ip then
    match unpack2 (split ":" ip 2) with
    | Ok (h, p) => Ok (h, PyStr p)
    | Raise e => Raise e
    end
  else if negb (truthy port) then Ok (ip, PyInt 8266)
  else Ok (ip, port).

(** Line 108: [f"ws://{ip}:{port}/"]. *)
Definition connection_url (host : string) (port : pyval) : string :=
  "ws://" ++ host ++ ":" ++ port_text port ++ "/".

Definition ip_to_url (ip : string) (port : pyval) : result string :=
  match resolve ip port with
  | Ok (h, p) => Ok (connection_url h p)
  | Raise e => Raise e
  end.

(** Modelled from the spec: the port-strings that [resolve] is said to
    accept, the decimal text of a positive integer; to be compared with what
    [ip_to_url] accepts. *)
Definition spec_positive_integer_text (s : string) : bool :=
  match NilZero.int_of_string s with
  | Some d => 0 <? Z.of_int d
  | None => false
  end.

(** Modelled from the spec: the reader of the documented
    [ws://host:port/] grammar, which the repository does not contain.  The
    text must open with [ws://] and close with [/]; what lies between is cut
    at its last [:] into host and port text. *)
Fixpoint strip_last_slash (s : string) : option string :=
  match s with
  | EmptyString => None
  | String c s' =>
      match s' with
      | EmptyString => if Ascii.eqb c "/" then Some EmptyString else None
      | String _ _ => option_map (String c) (strip_last_slash s')
      end
  end.

(** Modelled from the spec: the cut at the last [:] of [host:port]. *)
Fixpoint rsplit_colon (s : string) : option (string * string) :=
  match s with
  | EmptyString => None
  | String c s' =>
      match rsplit_colon s' with
      | Some (a, b) => Some (String c a, b)
      | None => if Ascii.eqb c ":" then Some (EmptyString, s') else None
      end
  end.

(** Modelled from the spec: the reader of [ws://host:port/] itself. *)
Definition parse_url (url : string) : option (string * string) :=
  match url with
  | String "w" (String "s" (String ":" (String "/" (String "/" rest)))) =>
      match strip_last_slash rest with
      | Some body => rsplit_colon body
      | None => None
      end
  | _ => None
  end.

(** Modelled from the spec: the integer a decimal port text stands for. *)
Definition int_of_text (s : string) : option Z :=
  option_map Z.of_int (NilZero.int_of_string s).

(* ------------------------------------------------------------------ *)
(** ** Observable effects *)

Inductive event : Type :=
| Print (msg : string)            (* print(msg) *)
| Sleep (secs : Q)                (* time.sleep(secs) *)
| KeyWrite (keys : string)        (* keyboard.write(keys) *)
| KeyPress (combo : string)       (* keyboard.press_and_release(combo) *)
| FindElement (id : string)       (* browser.find_element_by_id(id) *)
| ElementClear                    (* element.clear() *)
| SendKeys (keys : string)        (* element.send_keys(keys) *)
| SendReturn                      (* element.send_keys(Keys.RETURN) *)
| ChromeStart                     (* Chrome(options=opts) *)
| BrowserGet (path : string)      (* browser.get(path) *)
| BrowserClose                    (* browser.close() *)
| WebOpen (path : string).        (* webbrowser.open(path, new=2) *)

Definition is_close (e : event) : bool :=
  match e with BrowserClose => true | _ => false end.

Definition is_keywrite (e : event) : bool :=
  match e with KeyWrite _ => true | _ => false end.

Definition is_sleep (e : event) : bool :=
  match e with Sleep _ => true | _ => false end.

Definition count (p : event -> bool) (d : list event) : nat :=
  List.length (filter p d).

(* ------------------------------------------------------------------ *)
(** ** [find_webrepl_html_file] and [start_webrepl_html] *)

(** The client page on disk: [None] when the file is missing, otherwise its
    content.  The path stands for the resolved [pathlib] path. *)
Definition webrepl_client : string := "../bin/webrepl-client/webrepl.html".

Definition find_webrepl_html_file (page : option string)
  : string * list event :=
  match page with
  | None => (EmptyString, [Print ("Error: Could not find " ++ webrepl_client)])
  | Some _ => (webrepl_client, [])
  end.

Definition input_prefix : string :=
  "<input type=" ++ dq ++ "text" ++ dq ++ " name=" ++ dq ++ "webrepl_url" ++ dq
  ++ " id=" ++ dq ++ "url" ++ dq ++ " value=".

(** Line 79: the line written in place of a matching one. *)
Definition input_line (url : string) : string :=
  input_prefix ++ dq ++ url ++ dq ++ " />" ++ nl.

(** Lines 77-82: what the loop writes for one line read. *)
Definition rewrite_line (url line : string) : string :=
  if startswith line input_prefix then input_line url else line.

Definition is_empty (s : string) : bool :=
  match s with EmptyString => true | String _ _ => false end.

(** Returns the value returned (or the exception raised), the page left on
    disk and what was printed or opened.  The page, when present, is a file
    the program may read and write, and page and address are text the
    locale's codec reads and writes without error, as it does all 7-bit
    text. *)
Definition start_webrepl_html (os : platform) (page : option string)
           (ip : string)
  : result bool * option string * list event :=
  let (webrepl_html_file, out) := find_webrepl_html_file page in
  if is_empty webrepl_html_file then
    (Ok false, page, (out ++ [Print "Error: Could not find webrepl.html"])%list)
  else if is_empty ip then
    (Ok false, page,
     (out ++ [Print "Error: No WLAN ip address has been given."])%list)
  else
    match ip_to_url ip (PyStr EmptyString) with
    | Raise e => (Raise e, page, out)
    | Ok url =>
        let lines := match page with
                     | Some file => readlines (read_text file)
                     | None => []
                     end in
        (Ok true,
         Some (written os (map (rewrite_line url) lines)),
         (out ++ [Print ("Modifying " ++ webrepl_html_file);
                  Print ("Connecting webrepl client to " ++ ip);
                  WebOpen webrepl_html_file])%list)
    end.

(** The page left on disk by one call. *)
Definition provision (os : platform) (page : option string) (ip : string)
  : option string :=
  snd (fst (start_webrepl_html os page ip)).

(* ------------------------------------------------------------------ *)
(** ** The handshake *)

(** [polls] counts the reads of [element.text] made so far; [trace] holds
    every other effect, oldest first. *)
Record world : Type := { polls : nat; trace : list event }.

(** A computation either runs out of loop fuel ([None]) or yields a value
    and the world it leaves. *)
Definition M (A : Type) : Type := world -> option (A * world).

Definition ret {A} (a : A) : M A := fun w => Some (a, w).

Definition bind {A B} (m : M A) (k : A -> M B) : M B :=
  fun w => match m w with
           | Some (a, w') => k a w'
           | None => None
           end.

Notation "x <- m ;; k" := (bind m (fun x => k))
  (at level 61, m at next level, right associativity).
Notation "m ;; k" := (bind m (fun _ => k))
  (at level 61, right associativity).

Definition emit (e : event) : M unit :=
  fun w => Some (tt, {| polls := polls w; trace := (trace w ++ [e])%list |}).

Definition out_of_fuel {A} : M A := fun _ => None.

(** How a loop is left: by a [return] inside its body, or by its condition
    turning false. *)
Inductive flow : Type :=
| Returned (b : bool)
| Completed.

Definition msg_disconnected : string :=
  "ERROR: webrepl could not succesfully connect to a device.".

Definition msg_welcome_timeout (max_retries : Z) : string :=
  "ERROR: Execeeded maximum number of " ++ str_of_int max_retries
  ++ " tries waiting for welcome message.".

Definition msg_password_timeout (max_retries : Z) : string :=
  "ERROR: Execeeded maximum number of " ++ str_of_int max_retries
  ++ " tries to find the password prompt".

Definition msg_prompt_timeout (max_retries : Z) : string :=
  "Error: Execeeded maximum number of " ++ str_of_int max_retries
  ++ " tries to find the >>> prompt".

Definition msg_denied (password : string) : string :=
  "Error: Access Denied. Was " ++ dq ++ password ++ dq
  ++ " the correct password?".

(** Loop conditions are evaluated at most this many times for a given
    [max_retries]. *)
Definition loop_fuel (max_retries : Z) : nat := S (Z.to_nat (max_retries + 1)).

(** [time.sleep] raises [ValueError] on a negative argument and
    [OverflowError] on one too large for the platform's timer.  The polling
    interval of a stage is therefore taken among the lengths every platform
    accepts: from zero to [ULONG_MAX] milliseconds, in whole seconds. *)
Definition sleep_max : Q := 4294967.

Definition sleepable (secs : Q) : bool :=
  (Qle_bool 0 secs && Qle_bool secs sleep_max)%bool.

Record duration : Type :=
  { seconds : Q; seconds_ok : sleepable seconds = true }.

Coercion seconds : duration >-> Q.

(** The default [interval=0.5], and an interval of zero. *)
Definition half_second : duration :=
  {| seconds := 1 # 2; seconds_ok := eq_refl |}.

Definition no_pause : duration := {| seconds := 0; seconds_ok := eq_refl |}.

Inductive handle : Type :=
| RetFalse                        (* return False *)
| RetNone                         (* return None *)
| RetBrowser.                     (* return browser *)

Section Handshake.

(** The terminal element: [term n] is what the n-th read of
    [element.text] observes. *)
Variable term : nat -> string.

Definition element_text : M string :=
  fun w => Some (term (polls w),
                 {| polls := S (polls w); trace := trace w |}).

Definition start_session (url : string) : M unit :=
  emit (FindElement "url") ;;
  emit ElementClear ;;
  emit (SendKeys url) ;;
  emit SendReturn.

(** Lines 140-150, from a loop test on. *)
Fixpoint welcome_loop (fuel : nat) (interval : duration) (max_retries tries : Z)
  : M bool :=
  match fuel with
  | O => out_of_fuel
  | S fuel' =>
      t <- element_text ;;
      if negb (str_in "Welcome" t) then
        if tries >? max_retries then
          emit (Print (msg_welcome_timeout max_retries)) ;;
          ret false
        else
          emit (Sleep interval) ;;
          t' <- element_text ;;
          if str_in "Disconnected" t' then
            emit (Print msg_disconnected) ;;
            ret false
          else welcome_loop fuel' interval max_retries (tries + 1)
      else
        emit (Print "Welcome message found") ;;
        ret true
  end.

Definition wait_for_welcome_message (interval : duration) (max_retries : Z)
  : M bool :=
  emit (FindElement "term") ;;
  welcome_loop (loop_fuel max_retries) interval max_retries 0.

(** Lines 170-178, from a loop test on. *)
Fixpoint password_loop (fuel : nat) (interval : duration) (max_retries tries : Z)
  : M flow :=
  match fuel with
  | O => out_of_fuel
  | S fuel' =>
      t <- element_text ;;
      if negb (str_in "Password" t) then
        t' <- element_text ;;
        if str_in "Disconnected" t' then
          emit (Print msg_disconnected) ;;
          ret (Returned false)
        else if tries >? max_retries then
          emit (Print (msg_password_timeout max_retries)) ;;
          ret (Returned false)
        else
          emit (Sleep interval) ;;
          password_loop fuel' interval max_retries (tries + 1)
      else ret Completed
  end.

Definition enter_password (password : string) (interval : duration)
           (max_retries : Z) : M bool :=
  emit (FindElement "term") ;;
  f <- password_loop (loop_fuel max_retries) interval max_retries 0 ;;
  match f with
  | Returned b => ret b
  | Completed =>
      emit (KeyWrite password) ;;
      emit (KeyWrite nl) ;;
      emit (Sleep (1 # 2)) ;;
      t <- element_text ;;
      if str_in "Access denied" t then
        emit (Print (msg_denied password)) ;;
        ret false
      else
        emit (Print "password has been accepted.") ;;
        ret true
  end.

(** Lines 209-217, from a loop test on.  The argument of [debug] reads
    [element.text] once more in every pass. *)
Fixpoint prompt_loop (fuel : nat) (max_retries tries : Z) : M bool :=
  match fuel with
  | O => out_of_fuel
  | S fuel' =>
      t <- element_text ;;
      if negb (str_in ">>>" t) then
        _ <- element_text ;;
        emit (Sleep (1 # 2)) ;;
        if tries + 1 >? max_retries then
          emit (Print (msg_prompt_timeout max_retries)) ;;
          ret false
        else prompt_loop fuel' max_retries (tries + 1)
      else
        emit (Print "repl prompt found") ;;
        ret true
  end.

Definition wait_for_repl_prompt (max_retries : Z) : M bool :=
  emit (FindElement "term") ;;
  t <- element_text ;;
  if str_in "Access denied" t then
    emit (Print "Error: Access Denied.") ;;
    ret false
  else
    found <- prompt_loop (loop_fuel max_retries) max_retries 0 ;;
    if found then
      emit (KeyPress "ctrl+b") ;;
      ret true
    else ret false.

(** Lines 252-255: the browser is started on the page and the URL
    submitted. *)
Definition open_session (webrepl_html_file url : string) : M unit :=
  emit ChromeStart ;;
  emit (BrowserGet webrepl_html_file) ;;
  start_session url.

Definition start_webrepl_with_selenium (page : option string)
           (url password : string) : M handle :=
  let (webrepl_html_file, out) := find_webrepl_html_file page in
  (fun w => Some (tt, {| polls := polls w; trace := (trace w ++ out)%list |})) ;;
  if is_empty webrepl_html_file then
    emit (Print "Error: Could not find webrepl.html") ;;
    ret RetFalse
  else
    open_session webrepl_html_file url ;;
    success <- wait_for_welcome_message half_second 10 ;;
    if negb success then emit BrowserClose ;; ret RetNone
    else
      success <- enter_password password half_second 10 ;;
      if negb success then emit BrowserClose ;; ret RetNone
      else
        success <- wait_for_repl_prompt 10 ;;
        if negb success then emit BrowserClose ;; ret RetNone
        else ret RetBrowser.

End Handshake.

Definition w0 : world := {| polls := 0; trace := [] |}.

(* ------------------------------------------------------------------ *)
(** ** Well-formed line lists and sample inputs *)

(** The shape of whatever [readlines] returns: every line but possibly the
    last is a newline-free body followed by one newline, and a last line
    without newline is not empty. *)
Inductive lines_ok : list string -> Prop :=
| lines_ok_nil : lines_ok []
| lines_ok_last (l : string) :
    str_in nl l = false -> l <> EmptyString -> lines_ok [l]
| lines_ok_cons (body : string) (rest : list string) :
    str_in nl body = false -> lines_ok rest -> lines_ok ((body ++ nl) :: rest).

(** A page holding only the input field, and addresses with a line break
    inside. *)
Definition page_one_input : string := input_prefix ++ dq ++ dq ++ " />" ++ nl.
Definition ip_with_newline : string := "a" ++ nl ++ "b".
Definition ip_with_return : string := "a" ++ cr ++ "b".

(** The same two lines, without input field, in either convention. *)
Definition page_lf : string := "<html>" ++ nl ++ "</html>".
Definition page_crlf : string := "<html>" ++ cr ++ nl ++ "</html>".

(** A three-line page whose middle line is the input field. *)
Definition page_three_lines : string :=
  "<html>" ++ nl ++ input_prefix ++ dq ++ "ws://old:1/" ++ dq ++ " />" ++ nl
  ++ "</html>".

(** Simulated terminals. *)
Definition surface_silent : nat -> string := fun _ => "".
Definition surface_disconnected : nat -> string := fun _ => "Disconnected".
Definition surface_flash : nat -> string :=
  fun n => if Nat.eqb n 0 then "Disconnected" else "".
Definition surface_late_disconnect : nat -> string :=
  fun n => if Nat.ltb n 22 then "" else "Disconnected".
Definition surface_late_welcome : nat -> string :=
  fun n => if Nat.eqb n 22 then "Welcome" else "".
Definition surface_drop_after_two : nat -> string :=
  fun n => if Nat.ltb n 5 then "" else "Disconnected".
Definition surface_welcome_then_drop : nat -> string :=
  fun n => if Nat.ltb n 5 then "Welcome to MicroPython!"
           else "Welcome to MicroPython!  Disconnected".
Definition surface_session : nat -> string :=
  fun n => if Nat.ltb n 2 then "Welcome to MicroPython!"
           else if Nat.ltb n 4 then "Welcome to MicroPython!  Password: "
           else "WebREPL connected  >>> ".

(** ** Trace bookkeeping *)

(** [w'] is reached from [w] by further polls and by effects that all
    satisfy [P]. *)
Definition steps (P : event -> bool) (w w' : world) : Prop :=
  exists d, trace w' = (trace w ++ d)%list
            /\ forallb P d = true /\ (polls w <= polls w')%nat.

(** Neither a browser close nor typed keys. *)
Definition quiet (e : event) : bool := negb (is_close e) && negb (is_keywrite e).

Definition not_close (e : event) : bool := negb (is_close e).

Definition no_keys (e : event) : bool := negb (is_keywrite e).

Definition any_event (e : event) : bool := true.

(** The world after [browser.close()]. *)
Definition closed (w : world) : world :=
  {| polls := polls w; trace := (trace w ++ [BrowserClose])%list |}.

(** What [open_session] adds to the trace. *)
Definition session_opening (file url : string) : list event :=
  [ChromeStart; BrowserGet file; FindElement "url"; ElementClear;
   SendKeys url; SendReturn].

(** All three stages of the handshake succeed, one after the other, from
    the world [w] in which the browser is about to be started. *)
Definition handshake_ready (term : nat -> string) (file url password : string)
           (w w3 : world) : Prop :=
  exists ws w1 w2,
    open_session file url w = Some (tt, ws)
    /\ wait_for_welcome_message term half_second 10 ws = Some (true, w1)
    /\ enter_password term password half_second 10 w1 = Some (true, w2)
    /\ wait_for_repl_prompt term 10 w2 = Some (true, w3).

(* ------------------------------------------------------------------ *)
(** ** [main] and further bookkeeping *)

(** Lines 278-292.  [args.port] is whatever the command line gave, by
    default the text "8266".  A browser object is truthy, [False] and [None]
    are not. *)
Definition main (term : nat -> string) (page : option string) (ip : string)
           (port : pyval) (password : string) : M (result unit) :=
  match ip_to_url ip port with
  | Raise e => ret (Raise e)
  | Ok url =>
      browser <- start_webrepl_with_selenium term page url password ;;
      match browser with
      | RetBrowser =>
          emit (FindElement "term") ;;
          t <- element_text term ;;
          if str_in "Disconnected" t then
            emit (Print msg_disconnected) ;;
            emit BrowserClose ;;
            ret (Ok tt)
          else ret (Ok tt)
      | _ => ret (Ok tt)
      end
  end.

(** Text of 7-bit characters only: what every ASCII-compatible locale
    codec decodes and encodes without error. *)
Fixpoint seven_bit (s : string) : bool :=
  match s with
  | EmptyString => true
  | String (Ascii _ _ _ _ _ _ _ b7) s' => negb b7 && seven_bit s'
  end.

(** Occurrences of a character in a string. *)
Fixpoint count_char (c : ascii) (s : string) : nat :=
  match s with
  | EmptyString => 0
  | String a s' => (if Ascii.eqb a c then 1 else 0) + count_char c s'
  end.

Definition is_keypress (e : event) : bool :=
  match e with KeyPress _ => true | _ => false end.

Definition is_webopen (e : event) : bool :=
  match e with WebOpen _ => true | _ => false end.

Definition no_press (e : event) : bool := negb (is_keypress e).

(** Every sleep lasts half a second. *)
Definition half_second_sleeps (e : event) : bool :=
  match e with
  | Sleep q => ((Qnum q =? 1) && (Qden q =? 2)%positive)%bool
  | _ => true
  end.

(** [w'] is reached from [w] by at most [np] polls and by effects that all
    satisfy [P], at most [ns] of them sleeps. *)
Definition within (P : event -> bool) (np ns : nat) (w w' : world) : Prop :=
  exists d, trace w' = (trace w ++ d)%list
            /\ forallb P d = true
            /\ (polls w <= polls w' <= polls w + np)%nat
            /\ (count is_sleep d <= ns)%nat.

(** The effects of a stage that only waits: printing, sleeping and looking
    up the terminal element. *)
Definition only_waits (e : event) : bool :=
  match e with
  | Print _ | Sleep _ | FindElement _ => true
  | _ => false
  end.

Definition surface_quick_session : nat -> string :=
  fun n => if Nat.eqb n 0 then "Welcome to MicroPython!"
           else if Nat.eqb n 1 then "Password: "
           else if Nat.ltb n 4 then "WebREPL connected" else ">>> ".
Definition surface_prompt_after_two : nat -> string :=
  fun n => if Nat.ltb n 5 then "" else ">>> ".

(** Waiting effects whose sleeps all last half a second. *)
Definition waits_half (e : event) : bool :=
  only_waits e && half_second_sleeps e.

(** [w'] is reached from [w] by at most [np] polls and [ns] sleeps of half
    a second each, typing [keys], pressing [presses] and closing the browser
    [closes] times. *)
Definition profile (np ns : nat) (keys presses : list event) (closes : nat)
           (w w' : world) : Prop :=
  exists d, trace w' = (trace w ++ d)%list
            /\ (polls w <= polls w' <= polls w + np)%nat
            /\ (count is_sleep d <= ns)%nat
            /\ forallb half_second_sleeps d = true
            /\ filter is_keywrite d = keys
            /\ filter is_keypress d = presses
            /\ count is_close d = closes.

(** What the launcher leaves in the key-press channel and how often it
    closes the browser, by the value it returns. *)
Definition presses_of (r : handle) : list event :=
  match r with RetBrowser => [KeyPress "ctrl+b"] | _ => [] end.

Definition closes_of (r : handle) : nat :=
  match r with RetNone => 1%nat | _ => 0%nat end.

(* ================================================================== *)
(** * Properties *)

(** ** Strings *)

Lemma append_nil_r (s : string) : s ++ "" = s.
Proof. induction s as [|c s IH]; simpl; [reflexivity | now rewrite IH]. Qed.

Lemma append_assoc (a b c : string) : (a ++ b) ++ c = a ++ (b ++ c).
Proof. induction a as [|x a IH]; simpl; [reflexivity | now rewrite IH]. Qed.

Lemma startswith_app (p s : string) : startswith (p ++ s) p = true.
Proof.
  induction p as [|c p IH]; simpl; [reflexivity|].
  now rewrite Ascii.eqb_refl, IH.
Qed.

(** Membership of a single character, one position at a time. *)
Lemma str_in_char_cons (c a : ascii) (s : string) :
  str_in (String c "") (String a s) = Ascii.eqb c a || str_in (String c "") s.
Proof. simpl. now rewrite andb_true_r. Qed.

Lemma str_in_char_nil (c : ascii) : str_in (String c "") "" = false.
Proof. reflexivity. Qed.

Lemma str_in_char_app (c : ascii) (a b : string) :
  str_in (String c "") (a ++ b)
  = str_in (String c "") a || str_in (String c "") b.
Proof.
  induction a as [|x a IH].
  - reflexivity.
  - change (String x a ++ b) with (String x (a ++ b)).
    rewrite !str_in_char_cons, IH. now rewrite orb_assoc.
Qed.

Lemma split_no_sep (sep : ascii) (s : string) (n : nat) :
  str_in (String sep "") s = false -> split sep s n = [s].
Proof.
  revert n. induction s as [|a s IH]; intros n H.
  - reflexivity.
  - rewrite str_in_char_cons in H. apply orb_false_elim in H as [Ha Hs].
    destruct n as [|n]; [reflexivity|].
    simpl. rewrite Ascii.eqb_sym, Ha. now rewrite (IH (S n) Hs).
Qed.

Lemma split_one_sep (sep : ascii) (h p : string) (n : nat) :
  str_in (String sep "") h = false ->
  str_in (String sep "") p = false ->
  split sep (h ++ String sep p) (S n) = [h; p].
Proof.
  intros Hh Hp. induction h as [|a h IH].
  - simpl. rewrite Ascii.eqb_refl. now rewrite split_no_sep.
  - rewrite str_in_char_cons in Hh. apply orb_false_elim in Hh as [Ha Hh].
    simpl. rewrite Ascii.eqb_sym, Ha. now rewrite (IH Hh).
Qed.

Lemma strip_last_slash_app (s : string) : strip_last_slash (s ++ "/") = Some s.
Proof.
  induction s as [|c s IH]; [reflexivity|].
  change (String c s ++ "/") with (String c (s ++ "/")).
  cbn [strip_last_slash]. rewrite IH.
  destruct s; reflexivity.
Qed.

Lemma rsplit_colon_none (s : string) :
  str_in ":" s = false -> rsplit_colon s = None.
Proof.
  induction s as [|c s IH]; intros H; [reflexivity|].
  rewrite str_in_char_cons in H. apply orb_false_elim in H as [Hc Hs].
  simpl. rewrite (IH Hs). now rewrite Ascii.eqb_sym, Hc.
Qed.

Lemma rsplit_colon_app (h p : string) :
  str_in ":" p = false -> rsplit_colon (h ++ ":" ++ p) = Some (h, p).
Proof.
  intros Hp. induction h as [|c h IH].
  - simpl. now rewrite (rsplit_colon_none p Hp).
  - change (String c h ++ ":" ++ p) with (String c (h ++ ":" ++ p)).
    cbn [rsplit_colon]. now rewrite IH.
Qed.

Lemma string_of_uint_no_colon (d : Decimal.uint) :
  str_in ":" (NilEmpty.string_of_uint d) = false.
Proof.
  induction d; simpl NilEmpty.string_of_uint;
    [reflexivity | rewrite str_in_char_cons, IHd; reflexivity ..].
Qed.

Lemma str_of_int_no_colon (z : Z) : str_in ":" (str_of_int z) = false.
Proof.
  unfold str_of_int.
  assert (U : forall d, str_in ":" (NilZero.string_of_uint d) = false).
  { intros d. destruct d; try reflexivity;
      apply (string_of_uint_no_colon (_ _)). }
  destruct (Z.to_int z) as [d|d]; simpl NilZero.string_of_int.
  - apply U.
  - rewrite str_in_char_cons, U. reflexivity.
Qed.

Lemma int_of_text_str_of_int (z : Z) : int_of_text (str_of_int z) = Some z.
Proof.
  unfold int_of_text, str_of_int.
  rewrite NilZero.isi.
  - simpl. now rewrite DecimalZ.of_to.
  - destruct z; simpl; try discriminate.
    intros [= E]. now apply DecimalPos.Unsigned.to_uint_nonnil in E.
  - destruct z; simpl; try discriminate.
    intros [= E]. now apply DecimalPos.Unsigned.to_uint_nonnil in E.
Qed.

(* ------------------------------------------------------------------ *)
(** ** Address resolution *)

Lemma str_in_sep_app (h p : string) : str_in ":" (h ++ ":" ++ p) = true.
Proof.
  rewrite str_in_char_app.
  change (":" ++ p) with (String ":" p).
  rewrite str_in_char_cons, Ascii.eqb_refl. simpl. apply orb_true_r.
Qed.

Lemma resolve_one_separator (h p : string) (port : pyval) :
  str_in ":" h = false -> str_in ":" p = false ->
  resolve (h ++ ":" ++ p) port = Ok (h, PyStr p).
Proof.
  intros Hh Hp. unfold resolve.
  rewrite str_in_sep_app.
  change (":" ++ p) with (String ":" p).
  now rewrite (split_one_sep ":" h p 1 Hh Hp).
Qed.

Lemma resolve_no_separator (ip : string) (port : pyval) :
  str_in ":" ip = false ->
  resolve ip port = Ok (ip, if truthy port then port else PyInt 8266).
Proof.
  intros H. unfold resolve. rewrite H. now destruct (truthy port).
Qed.

Lemma split_once (sep : ascii) (s b : string) :
  split sep s 1 = [b] -> s = b /\ str_in (String sep "") b = false.
Proof.
  revert b. induction s as [|c s IH]; intros b H.
  - injection H as <-. split; reflexivity.
  - simpl in H. destruct (Ascii.eqb c sep) eqn:E.
    + destruct s; simpl in H; discriminate.
    + destruct (split sep s 1) as [|x t] eqn:Es.
      * destruct s as [|c' s]; simpl in Es; [discriminate|].
        destruct (Ascii.eqb c' sep); [discriminate|].
        destruct (split sep s 1); discriminate.
      * injection H as <- ->. destruct (IH x eq_refl) as [-> Hx].
        split; [reflexivity|].
        rewrite str_in_char_cons, Ascii.eqb_sym, E. exact Hx.
Qed.

Lemma split_twice (sep : ascii) (s a b : string) :
  split sep s 2 = [a; b] ->
  s = a ++ String sep b
  /\ str_in (String sep "") a = false /\ str_in (String sep "") b = false.
Proof.
  revert a. induction s as [|c s IH]; intros a H.
  - discriminate.
  - simpl in H. destruct (Ascii.eqb c sep) eqn:E.
    + injection H as <- H. apply split_once in H as [-> Hb].
      apply Ascii.eqb_eq in E. subst c. repeat split; auto.
    + destruct (split sep s 2) as [|x t] eqn:Es; [discriminate|].
      injection H as <- ->.
      destruct (IH x eq_refl) as (-> & Hx & Hb).
      repeat split; auto.
      rewrite str_in_char_cons, Ascii.eqb_sym, E. exact Hx.
Qed.

(** Whatever [resolve] returns for an address holding a separator, the
    host and the port text are free of separators and rebuild the address. *)
Lemma resolve_embedded (ip : string) (port : pyval) (h : string) (p : pyval) :
  str_in ":" ip = true -> resolve ip port = Ok (h, p) ->
  ip = h ++ ":" ++ port_text p
  /\ str_in ":" h = false /\ str_in ":" (port_text p) = false.
Proof.
  intros Hin. unfold resolve. rewrite Hin.
  destruct (split ":" ip 2) as [|a [|b [|c t]]] eqn:Es; simpl; try discriminate.
  intros [= <- <-]. simpl. now apply split_twice.
Qed.

(** C3: a bare address resolves to the default port 8266, an address with an
    embedded port resolves to that port, and whenever the address holds a
    separator the explicit port argument has no influence on the result. *)
Theorem resolve_default_and_embedded_port :
  resolve "192.168.1.5" (PyStr "") = Ok ("192.168.1.5", PyInt 8266)
  /\ ip_to_url "192.168.1.5" (PyStr "") = Ok "ws://192.168.1.5:8266/"
  /\ (forall port,
        resolve "192.168.1.5:1111" port = Ok ("192.168.1.5", PyStr "1111")
        /\ ip_to_url "192.168.1.5:1111" port = Ok "ws://192.168.1.5:1111/")
  /\ port_text (PyStr "1111") = port_text (PyInt 1111)
  /\ int_of_text "1111" = Some 1111
  /\ (forall ip p1 p2, str_in ":" ip = true ->
        resolve ip p1 = resolve ip p2 /\ ip_to_url ip p1 = ip_to_url ip p2)
  /\ (forall h p port, str_in ":" h = false -> str_in ":" p = false ->
        resolve (h ++ ":" ++ p) port = Ok (h, PyStr p)).
Proof.
  repeat split; try reflexivity.
  - unfold resolve. now rewrite H.
  - unfold ip_to_url, resolve. now rewrite H.
  - intros h p port Hh Hp. now apply resolve_one_separator.
Qed.

Lemma resolve_default_and_embedded_port_witness :
  ip_to_url "10.0.0.7:4242" (PyInt 9000) = ip_to_url "10.0.0.7:4242" (PyStr "")
  /\ resolve ("10.0.0.7" ++ ":" ++ "4242") (PyInt 9000)
     = Ok ("10.0.0.7", PyStr "4242").
Proof.
  destruct resolve_default_and_embedded_port
    as (_ & _ & _ & _ & _ & Hign & Hemb).
  split.
  - apply (Hign "10.0.0.7:4242" (PyInt 9000) (PyStr "")). reflexivity.
  - apply (Hemb "10.0.0.7" "4242" (PyInt 9000)); reflexivity.
Defined.

(** C4: on an address with two separators the call does not split at the
    first one: [split(":", maxsplit=2)] yields three parts and the two-name
    unpacking raises [ValueError], whereas one split would give the host
    and the rest. *)
Theorem ip_to_url_two_separators :
  forall port,
    split ":" "192.168.1.5:1111:22" 2 = ["192.168.1.5"; "1111"; "22"]
    /\ resolve "192.168.1.5:1111:22" port = Raise ValueError
    /\ ip_to_url "192.168.1.5:1111:22" port = Raise ValueError
    /\ unpack2 (split ":" "192.168.1.5:1111:22" 1)
       = Ok ("192.168.1.5", "1111:22").
Proof. intros port. repeat split; reflexivity. Qed.

(** C5 as stated fails: a port text that is no positive integer is accepted
    and put into the URL. *)
Lemma ip_to_url_accepts_bad_port :
  spec_positive_integer_text "abc" = false
  /\ resolve "192.168.1.5:abc" (PyStr "") = Ok ("192.168.1.5", PyStr "abc")
  /\ ip_to_url "192.168.1.5:abc" (PyStr "") = Ok "ws://192.168.1.5:abc/"
  /\ spec_positive_integer_text "0" = false
  /\ ip_to_url "192.168.1.5:0" (PyStr "") = Ok "ws://192.168.1.5:0/"
  /\ spec_positive_integer_text (port_text (PyInt (-1))) = false
  /\ ip_to_url "192.168.1.5" (PyInt (-1)) = Ok "ws://192.168.1.5:-1/".
Proof. repeat split; reflexivity. Qed.

(** C5, amended: the port is never validated.  An address with one
    separator yields the URL built from the text after the separator,
    whatever that text is; an address without separator yields the URL built
    from the explicit port when it is truthy and from 8266 otherwise. *)
Theorem ip_to_url_port_unvalidated :
  forall (h p : string) (port : pyval),
    str_in ":" h = false -> str_in ":" p = false ->
    ip_to_url (h ++ ":" ++ p) port = Ok ("ws://" ++ h ++ ":" ++ p ++ "/")
    /\ ip_to_url h port
       = Ok ("ws://" ++ h ++ ":"
             ++ port_text (if truthy port then port else PyInt 8266) ++ "/").
Proof.
  intros h p port Hh Hp. unfold ip_to_url.
  rewrite (resolve_one_separator h p port Hh Hp).
  rewrite (resolve_no_separator h port Hh).
  split; reflexivity.
Qed.

Lemma ip_to_url_port_unvalidated_witness :
  ip_to_url ("192.168.1.5" ++ ":" ++ "abc") (PyStr "")
  = Ok ("ws://" ++ "192.168.1.5" ++ ":" ++ "abc" ++ "/")
  /\ spec_positive_integer_text "abc" = false.
Proof.
  split; [|reflexivity].
  apply (ip_to_url_port_unvalidated "192.168.1.5" "abc" (PyStr ""));
    reflexivity.
Defined.

(** ** The connection URL *)

Lemma parse_connection_url (host : string) (port : pyval) :
  str_in ":" (port_text port) = false ->
  parse_url (connection_url host port) = Some (host, port_text port).
Proof.
  intros Hp. unfold connection_url.
  change ("ws://" ++ host ++ ":" ++ port_text port ++ "/")
    with (String "w" (String "s" (String ":" (String "/" (String "/"
            (host ++ ":" ++ port_text port ++ "/")))))).
  cbv beta iota delta [parse_url].
  replace (host ++ ":" ++ port_text port ++ "/")
    with ((host ++ ":" ++ port_text port) ++ "/")
    by now rewrite !append_assoc.
  rewrite strip_last_slash_app.
  now apply rsplit_colon_app.
Qed.

(** C6: the URL has exactly the form [ws://<host>:<port>/], every URL that
    [ip_to_url] returns is built that way from the resolved pair, and reading
    the URL back gives the same host and port: for every integer port, for
    every port text without separator, hence for every pair resolved from an
    address with an embedded port. *)
Theorem connection_url_roundtrip :
  (forall host port,
      connection_url host port
      = "ws://" ++ host ++ ":" ++ port_text port ++ "/")
  /\ (forall ip port url, ip_to_url ip port = Ok url ->
        exists h p, resolve ip port = Ok (h, p)
                    /\ url = "ws://" ++ h ++ ":" ++ port_text p ++ "/")
  /\ (forall host z,
        parse_url (connection_url host (PyInt z)) = Some (host, str_of_int z)
        /\ int_of_text (str_of_int z) = Some z)
  /\ (forall host s, str_in ":" s = false ->
        parse_url (connection_url host (PyStr s)) = Some (host, s))
  /\ (forall ip port h p, str_in ":" ip = true -> resolve ip port = Ok (h, p) ->
        parse_url (connection_url h p) = Some (h, port_text p)).
Proof.
  split; [reflexivity|]. split; [|split; [|split]].
  - intros ip port url. unfold ip_to_url.
    destruct (resolve ip port) as [[h p]|e]; [|discriminate].
    intros [= <-]. now exists h, p.
  - intros host z. split.
    + apply (parse_connection_url host (PyInt z)). apply str_of_int_no_colon.
    + apply int_of_text_str_of_int.
  - intros host s Hs. now apply (parse_connection_url host (PyStr s)).
  - intros ip port h p Hin Hr.
    apply parse_connection_url.
    now destruct (resolve_embedded ip port h p Hin Hr) as (_ & _ & ?).
Qed.

Lemma connection_url_roundtrip_witness :
  (exists h p, resolve "192.168.1.5" (PyStr "") = Ok (h, p)
               /\ "ws://192.168.1.5:8266/"
                  = "ws://" ++ h ++ ":" ++ port_text p ++ "/")
  /\ parse_url (connection_url "192.168.1.5" (PyStr "1111"))
     = Some ("192.168.1.5", "1111")
  /\ parse_url (connection_url "192.168.1.5" (PyStr "1111"))
     = Some ("192.168.1.5", port_text (PyStr "1111")).
Proof.
  destruct connection_url_roundtrip as (_ & Hform & _ & Hstr & Hres).
  split; [|split].
  - apply (Hform "192.168.1.5" (PyStr "")). reflexivity.
  - apply Hstr. reflexivity.
  - apply (Hres "192.168.1.5:1111" (PyStr "")); reflexivity.
Defined.

(* ------------------------------------------------------------------ *)
(** ** Provisioning the client page *)

Lemma joined_readlines (s : string) : joined (readlines s) = s.
Proof.
  induction s as [|c s IH]; [reflexivity|].
  simpl. destruct (Ascii.eqb c "010").
  - simpl. now rewrite IH.
  - destruct (readlines s) as [|l ls]; simpl in *; now rewrite <- IH.
Qed.

Lemma readlines_no_nl (l : string) :
  str_in nl l = false -> l <> "" -> readlines l = [l].
Proof.
  induction l as [|c l IH]; intros H Hne; [contradiction|].
  unfold nl in H. rewrite str_in_char_cons in H.
  apply orb_false_elim in H as [Hc Hl].
  simpl. rewrite Ascii.eqb_sym, Hc.
  destruct l as [|c' l]; [reflexivity|].
  rewrite IH; [reflexivity | exact Hl | discriminate].
Qed.

Lemma readlines_line_app (body s : string) :
  str_in nl body = false ->
  readlines ((body ++ nl) ++ s) = (body ++ nl) :: readlines s.
Proof.
  induction body as [|c body IH]; intros H; [reflexivity|].
  unfold nl in H. rewrite str_in_char_cons in H.
  apply orb_false_elim in H as [Hc Hb].
  change ((String c body ++ nl) ++ s) with (String c ((body ++ nl) ++ s)).
  cbn [readlines]. rewrite Ascii.eqb_sym, Hc.
  now rewrite (IH Hb).
Qed.

Lemma readlines_joined (L : list string) :
  lines_ok L -> readlines (joined L) = L.
Proof.
  induction 1 as [|l H Hne|body rest H Hrest IH].
  - reflexivity.
  - simpl. rewrite append_nil_r. now apply readlines_no_nl.
  - simpl. rewrite (readlines_line_app body (joined rest) H).
    now rewrite IH.
Qed.

Lemma readlines_ok (s : string) : lines_ok (readlines s).
Proof.
  induction s as [|c s IH]; [constructor|].
  simpl. destruct (Ascii.eqb c "010") eqn:E.
  - apply Ascii.eqb_eq in E. subst c.
    apply (lines_ok_cons "" (readlines s)); [reflexivity | exact IH].
  - inversion IH as [|l H Hne Hl|body rest H Hrest Hl].
    + apply lines_ok_last; [|discriminate].
      unfold nl. rewrite str_in_char_cons, Ascii.eqb_sym, E. reflexivity.
    + apply lines_ok_last; [|discriminate].
      unfold nl. rewrite str_in_char_cons, Ascii.eqb_sym, E. exact H.
    + apply (lines_ok_cons (String c body) rest); [|exact Hrest].
      unfold nl. rewrite str_in_char_cons, Ascii.eqb_sym, E. exact H.
Qed.

(** *** Text-mode reading and writing *)

Lemma write_text_app (os : platform) (a b : string) :
  write_text os (a ++ b) = write_text os a ++ write_text os b.
Proof.
  induction a as [|c a IH]; [reflexivity|].
  simpl. rewrite IH. destruct (Ascii.eqb c "010"); [|reflexivity].
  now rewrite append_assoc.
Qed.

Lemma written_joined (os : platform) (L : list string) :
  written os L = write_text os (joined L).
Proof.
  induction L as [|l L IH]; [reflexivity|].
  simpl. now rewrite write_text_app, IH.
Qed.

Lemma write_text_posix (s : string) : write_text Posix s = s.
Proof.
  induction s as [|c s IH]; [reflexivity|].
  simpl. rewrite IH. destruct (Ascii.eqb c "010") eqn:E; [|reflexivity].
  apply Ascii.eqb_eq in E. now subst c.
Qed.

Lemma universal_newlines_no_cr (b : bool) (s : string) :
  str_in cr (universal_newlines b s) = false.
Proof.
  revert b. induction s as [|c s IH]; intros b; [reflexivity|].
  cbn [universal_newlines]. destruct (Ascii.eqb c "013") eqn:E.
  - unfold cr. rewrite str_in_char_cons. apply IH.
  - destruct (Ascii.eqb c "010" && b); [apply IH|].
    unfold cr. rewrite str_in_char_cons, Ascii.eqb_sym, E. apply IH.
Qed.

(** What was written from text without carriage return is read back as
    that text, on either platform. *)
Lemma read_write_text (os : platform) (t : string) :
  str_in cr t = false -> read_text (write_text os t) = t.
Proof.
  unfold read_text. induction t as [|c t IH]; intros H; [reflexivity|].
  unfold cr in H. rewrite str_in_char_cons in H.
  apply orb_false_elim in H as [Hc Ht]. rewrite Ascii.eqb_sym in Hc.
  cbn [write_text]. destruct (Ascii.eqb c "010") eqn:E.
  - apply Ascii.eqb_eq in E. subst c.
    destruct os; cbn; now rewrite (IH Ht).
  - cbn [universal_newlines]. rewrite Hc, E. cbn. now rewrite (IH Ht).
Qed.

(** *** The rewritten lines *)

Lemma input_line_terminated (url : string) :
  input_line url = (input_prefix ++ dq ++ url ++ dq ++ " />") ++ nl.
Proof. unfold input_line. now rewrite !append_assoc. Qed.

Lemma input_line_body_no_nl (url : string) :
  str_in nl url = false ->
  str_in nl (input_prefix ++ dq ++ url ++ dq ++ " />") = false.
Proof.
  intros H. unfold nl in *. rewrite !str_in_char_app, H. reflexivity.
Qed.

Lemma input_line_no_cr (url : string) :
  str_in cr url = false -> str_in cr (input_line url) = false.
Proof.
  intros H. unfold input_line, cr in *. rewrite !str_in_char_app, H.
  reflexivity.
Qed.

Lemma rewrite_line_cases (url line : string) :
  rewrite_line url line
  = if startswith line input_prefix then input_line url else line.
Proof. reflexivity. Qed.

Lemma rewrite_line_input (url : string) :
  rewrite_line url (input_line url) = input_line url.
Proof.
  unfold rewrite_line, input_line. now rewrite startswith_app.
Qed.

Lemma rewrite_line_idem (url line : string) :
  rewrite_line url (rewrite_line url line) = rewrite_line url line.
Proof.
  rewrite (rewrite_line_cases url line).
  destruct (startswith line input_prefix) eqn:E.
  - apply rewrite_line_input.
  - unfold rewrite_line. now rewrite E.
Qed.

Lemma rewrite_lines_ok (url : string) (L : list string) :
  str_in nl url = false -> lines_ok L -> lines_ok (map (rewrite_line url) L).
Proof.
  intros Hu. induction 1 as [|l H Hne|body rest H Hrest IH]; simpl.
  - constructor.
  - unfold rewrite_line. destruct (startswith l input_prefix).
    + rewrite input_line_terminated.
      apply lines_ok_cons; [now apply input_line_body_no_nl | constructor].
    + now apply lines_ok_last.
  - unfold rewrite_line at 1. destruct (startswith (body ++ nl) input_prefix).
    + rewrite input_line_terminated.
      apply lines_ok_cons; [now apply input_line_body_no_nl | exact IH].
    + now apply lines_ok_cons.
Qed.

Lemma rewrite_lines_no_cr (url : string) (L : list string) :
  str_in cr url = false -> str_in cr (joined L) = false ->
  str_in cr (joined (map (rewrite_line url) L)) = false.
Proof.
  intros Hu. induction L as [|l L IH]; intros H; [reflexivity|].
  simpl in *. unfold cr in *. rewrite str_in_char_app in *.
  apply orb_false_elim in H as [Hl HL].
  rewrite (IH HL), orb_false_r, rewrite_line_cases.
  destruct (startswith l input_prefix);
    [now apply input_line_no_cr | exact Hl].
Qed.

(** The page a successful call leaves on disk. *)
Lemma provision_page (os : platform) (file ip url : string) :
  is_empty ip = false -> ip_to_url ip (PyStr "") = Ok url ->
  provision os (Some file) ip
  = Some (written os (map (rewrite_line url) (readlines (read_text file)))).
Proof.
  intros Hip Hurl. unfold provision, start_webrepl_html. simpl.
  now rewrite Hip, Hurl.
Qed.

(** A character foreign to the fixed parts of the URL and to the address
    is foreign to the URL. *)
Lemma url_char_free (c : ascii) (ip url : string) :
  str_in (String c "") "ws://:8266/" = false ->
  str_in (String c "") ip = false -> ip_to_url ip (PyStr "") = Ok url ->
  str_in (String c "") url = false.
Proof.
  intros Hfix Hip.
  change "ws://:8266/" with ("ws://" ++ ":" ++ "8266" ++ "/") in Hfix.
  rewrite !str_in_char_app in Hfix.
  apply orb_false_elim in Hfix as [F1 Hfix].
  apply orb_false_elim in Hfix as [F2 Hfix].
  apply orb_false_elim in Hfix as [F3 F4].
  unfold ip_to_url.
  destruct (resolve ip (PyStr "")) as [[h p]|e] eqn:Hr; [|discriminate].
  intros [= <-]. unfold connection_url.
  destruct (str_in ":" ip) eqn:Hc.
  - destruct (resolve_embedded ip _ h p Hc Hr) as (E & _ & _).
    rewrite E in Hip. rewrite !str_in_char_app in Hip.
    apply orb_false_elim in Hip as [H1 H2].
    apply orb_false_elim in H2 as [_ H3].
    now rewrite !str_in_char_app, F1, F2, F4, H1, H3.
  - rewrite (resolve_no_separator ip _ Hc) in Hr. injection Hr as <- <-.
    change (port_text (PyInt 8266)) with "8266".
    now rewrite !str_in_char_app, F1, F2, F3, F4, Hip.
Qed.

(** C7 as stated fails: with a line break inside the address the rewritten
    line spans two lines of the file, and a second run appends its tail
    again.  A newline does so on either platform, and so does a carriage
    return, which is read back as a newline. *)
Lemma provision_twice_differs :
  (exists url, ip_to_url ip_with_newline (PyStr "") = Ok url)
  /\ provision Posix (provision Posix (Some page_one_input) ip_with_newline)
       ip_with_newline
     <> provision Posix (Some page_one_input) ip_with_newline
  /\ provision Windows
       (provision Windows (Some page_one_input) ip_with_newline)
       ip_with_newline
     <> provision Windows (Some page_one_input) ip_with_newline
  /\ provision Posix (provision Posix (Some page_one_input) ip_with_return)
       ip_with_return
     <> provision Posix (Some page_one_input) ip_with_return.
Proof.
  split; [eexists; reflexivity|].
  repeat split; vm_compute; discriminate.
Qed.

(** C7, amended: on either platform, for every page (present or missing)
    and every address without newline or carriage return, running the
    provisioning a second time with the same address leaves the file exactly
    as the first run left it. *)
Theorem provision_idempotent :
  forall (os : platform) (page : option string) (ip : string),
    str_in nl ip = false -> str_in cr ip = false ->
    provision os (provision os page ip) ip = provision os page ip.
Proof.
  intros os page ip Hnl Hcr.
  destruct page as [file|]; [|reflexivity].
  destruct (is_empty ip) eqn:Hip.
  { destruct ip; [reflexivity | discriminate]. }
  destruct (ip_to_url ip (PyStr "")) as [url|e] eqn:Hurl.
  - assert (Unl : str_in nl url = false)
      by (apply (url_char_free "010" ip url); auto).
    assert (Ucr : str_in cr url = false)
      by (apply (url_char_free "013" ip url); auto).
    rewrite (provision_page os file ip url Hip Hurl).
    rewrite (provision_page os _ ip url Hip Hurl).
    f_equal. rewrite !written_joined. f_equal.
    rewrite read_write_text.
    + rewrite readlines_joined.
      * rewrite map_map. f_equal. apply map_ext. intros l.
        apply rewrite_line_idem.
      * apply rewrite_lines_ok; [exact Unl | apply readlines_ok].
    + apply rewrite_lines_no_cr; [exact Ucr|].
      rewrite joined_readlines. apply universal_newlines_no_cr.
  - assert (E : provision os (Some file) ip = Some file).
    { unfold provision, start_webrepl_html. simpl. now rewrite Hip, Hurl. }
    now rewrite !E.
Qed.

Lemma provision_idempotent_witness :
  provision Posix (provision Posix (Some page_three_lines) "192.168.1.5:1111")
    "192.168.1.5:1111"
  = provision Posix (Some page_three_lines) "192.168.1.5:1111"
  /\ provision Posix (Some page_three_lines) "192.168.1.5:1111"
     <> Some page_three_lines.
Proof.
  split.
  - apply (provision_idempotent Posix (Some page_three_lines)
             "192.168.1.5:1111"); reflexivity.
  - vm_compute. discriminate.
Defined.

(** C8 as stated fails: a line that is not rewritten keeps its text but not
    its bytes when its terminator is not the platform's; a page without any
    input line comes back with other line ends. *)
Lemma provision_changes_line_ends :
  (forall line, In line (readlines (read_text page_crlf)) ->
                startswith line input_prefix = false)
  /\ provision Posix (Some page_crlf) "192.168.1.5" = Some page_lf
  /\ provision Windows (Some page_lf) "192.168.1.5" = Some page_crlf
  /\ page_crlf <> page_lf.
Proof.
  split; [|repeat split; discriminate || reflexivity].
  intros line [<-|[<-|[]]]; reflexivity.
Qed.

Lemma written_chunks (os : platform) (L : list string) :
  written os L = joined (map (write_text os) L).
Proof.
  induction L as [|l L IH]; [reflexivity|].
  unfold written, joined in *. cbn [fold_right map]. now rewrite IH.
Qed.

(** C8, amended: whenever the provisioning succeeds, for every page, the
    lines read (the page with each line end turned into a newline) are
    rewritten one by one, a line starting
    with the input-field prefix into the canonical input line carrying the
    URL and any other line into itself, and the file becomes these lines,
    each written with the platform's line separator for its newline.  So
    when the page is stored with the platform's line separators every other
    line is left byte for byte, and such a page without input line is left
    as it was. *)
Theorem provision_rewrites_only_input_lines :
  forall (os : platform) (file ip url : string),
    is_empty ip = false -> ip_to_url ip (PyStr "") = Ok url ->
    exists out : list string,
      provision os (Some file) ip = Some (joined (map (write_text os) out))
      /\ joined (readlines (read_text file)) = read_text file
      /\ List.length out = List.length (readlines (read_text file))
      /\ (forall i line,
            nth_error (readlines (read_text file)) i = Some line ->
            nth_error out i
            = Some (if startswith line input_prefix
                    then input_prefix ++ dq ++ url ++ dq ++ " />" ++ nl
                    else line))
      /\ (forall text,
            str_in cr text = false -> file = write_text os text ->
            read_text file = text
            /\ file = joined (map (write_text os) (readlines text))
            /\ ((forall line, In line (readlines text) ->
                    startswith line input_prefix = false) ->
                provision os (Some file) ip = Some file))
      /\ (forall text, write_text Posix text = text).
Proof.
  intros os file ip url Hip Hurl.
  exists (map (rewrite_line url) (readlines (read_text file))).
  split; [now rewrite (provision_page os file ip url Hip Hurl), written_chunks|].
  split; [apply joined_readlines|].
  split; [apply length_map|].
  split; [|split; [|apply write_text_posix]].
  - intros i line Hi. rewrite nth_error_map, Hi. reflexivity.
  - intros text Hcr ->.
    assert (R := read_write_text os text Hcr).
    split; [exact R|]. split.
    + now rewrite <- written_chunks, written_joined, joined_readlines.
    + intros Hnone. rewrite (provision_page os _ ip url Hip Hurl), R.
      f_equal. rewrite written_joined. f_equal.
      rewrite <- (joined_readlines text) at 2. f_equal.
      rewrite <- (map_id (readlines text)) at 2.
      apply map_ext_in. intros l Hl. unfold rewrite_line.
      now rewrite (Hnone l Hl).
Qed.

Lemma provision_rewrites_only_input_lines_witness :
  (exists out : list string,
      provision Posix (Some page_crlf) "192.168.1.5"
      = Some (joined (map (write_text Posix) out))
      /\ nth_error out 0 = Some ("<html>" ++ nl)
      /\ nth_error out 1 = Some "</html>")
  /\ (exists out : list string,
         provision Windows (Some page_three_lines) "192.168.1.5"
         = Some (joined (map (write_text Windows) out))
         /\ nth_error out 0 = Some ("<html>" ++ nl)
         /\ nth_error out 1
            = Some (input_prefix ++ dq ++ "ws://192.168.1.5:8266/" ++ dq
                    ++ " />" ++ nl)
         /\ nth_error out 2 = Some "</html>").
Proof.
  split.
  - destruct (provision_rewrites_only_input_lines
                Posix page_crlf "192.168.1.5" "ws://192.168.1.5:8266/"
                eq_refl eq_refl) as (out & Hp & _ & _ & Hnth & _).
    exists out. split; [exact Hp|]. split.
    + apply (Hnth 0%nat ("<html>" ++ nl)). reflexivity.
    + apply (Hnth 1%nat "</html>"). reflexivity.
  - destruct (provision_rewrites_only_input_lines
                Windows page_three_lines "192.168.1.5"
                "ws://192.168.1.5:8266/"
                eq_refl eq_refl) as (out & Hp & _ & _ & Hnth & _).
    exists out. split; [exact Hp|]. split; [|split].
    + apply (Hnth 0%nat ("<html>" ++ nl)). reflexivity.
    + apply (Hnth 1%nat
               (input_prefix ++ dq ++ "ws://old:1/" ++ dq ++ " />" ++ nl)).
      reflexivity.
    + apply (Hnth 2%nat "</html>"). reflexivity.
Defined.

(* ------------------------------------------------------------------ *)
(** ** The polling loops *)

Lemma gtb_true (a b : Z) : b < a -> (a >? b) = true.
Proof. intros H. rewrite Z.gtb_ltb. now apply Z.ltb_lt. Qed.

Lemma gtb_false (a b : Z) : a <= b -> (a >? b) = false.
Proof. intros H. rewrite Z.gtb_ltb. apply Z.ltb_ge. exact H. Qed.

(** One step of symbolic execution of a monadic program. *)
Ltac mstep :=
  cbv beta iota zeta delta [bind emit ret element_text];
  cbn [polls trace negb].

Section Loops.

Variable term : nat -> string.
Variable interval : duration.
Variable max_retries : Z.

(** The welcome loop entered with [k] retries left, on a run of snapshots
    whose next [k] loop tests show no "Welcome" and whose [k] reads after
    the sleeps show no "Disconnected": it sleeps [k] times, reads [2k+1]
    times, and its last loop test decides. *)
Lemma welcome_loop_exhaust (k : nat) :
  forall (fuel : nat) (tries : Z) (w : world),
    (k < fuel)%nat -> tries + Z.of_nat k = max_retries + 1 ->
    (forall j, (j < k)%nat ->
       str_in "Welcome" (term (polls w + 2 * j)%nat) = false
       /\ str_in "Disconnected" (term (polls w + 2 * j + 1)%nat) = false) ->
    welcome_loop term fuel interval max_retries tries w
    = Some (str_in "Welcome" (term (polls w + 2 * k)%nat),
            {| polls := polls w + (2 * k + 1);
               trace :=
                 (trace w ++ repeat (Sleep interval) k
                  ++ [Print (if str_in "Welcome" (term (polls w + 2 * k)%nat)
                             then "Welcome message found"
                             else msg_welcome_timeout max_retries)])%list |}).
Proof.
  induction k as [|k IH]; intros fuel tries w Hf Ht Hno;
    (destruct fuel as [|fuel]; [lia|]); cbn [welcome_loop]; mstep.
  - replace (polls w + 2 * 0)%nat with (polls w) by lia.
    destruct (str_in "Welcome" (term (polls w))); mstep.
    + do 2 f_equal. f_equal. lia.
    + rewrite gtb_true by lia. mstep. do 2 f_equal. f_equal. lia.
  - destruct (Hno 0%nat ltac:(lia)) as [H0 H1].
    replace (polls w + 2 * 0)%nat with (polls w) in H0 by lia.
    replace (polls w + 2 * 0 + 1)%nat with (S (polls w)) in H1 by lia.
    rewrite H0. mstep. rewrite gtb_false by lia. mstep. rewrite H1.
    rewrite (IH fuel (tries + 1)); cbn [polls trace]; try lia.
    + replace (S (S (polls w)) + 2 * k)%nat
        with (polls w + 2 * S k)%nat by lia.
      do 2 f_equal. f_equal; [lia | now rewrite <- app_assoc].
    + intros j Hj. destruct (Hno (S j) ltac:(lia)) as [A B].
      replace (S (S (polls w)) + 2 * j)%nat
        with (polls w + 2 * S j)%nat by lia.
      split; [exact A | exact B].
Qed.

(** A poll after a sleep that shows "Disconnected" ends the welcome loop
    with the disconnect message, provided the retries before it were still
    allowed and no loop test up to it saw "Welcome". *)
Lemma welcome_loop_disconnected (k : nat) :
  forall (fuel : nat) (tries : Z) (w : world),
    (k < fuel)%nat -> tries + Z.of_nat k <= max_retries ->
    (forall j, (j <= k)%nat ->
               str_in "Welcome" (term (polls w + 2 * j)) = false) ->
    str_in "Disconnected" (term (polls w + 2 * k + 1)) = true ->
    exists w',
      welcome_loop term fuel interval max_retries tries w = Some (false, w')
      /\ last (trace w') ElementClear = Print msg_disconnected
      /\ (polls w' <= polls w + 2 * k + 2)%nat.
Proof.
  induction k as [|k IH]; intros fuel tries w Hf Ht HW HD;
    (destruct fuel as [|fuel]; [lia|]);
    cbn [welcome_loop]; mstep;
    generalize (HW 0%nat ltac:(lia));
    replace (polls w + 2 * 0)%nat with (polls w) by lia;
    intros ->; mstep;
    rewrite gtb_false by lia;
    mstep.
  - replace (polls w + 2 * 0 + 1)%nat with (S (polls w)) in HD by lia.
    rewrite HD. mstep. eexists. split; [reflexivity|].
    cbn [trace polls]. split; [now rewrite last_last | lia].
  - destruct (str_in "Disconnected" (term (S (polls w)))) eqn:E.
    + mstep. eexists. split; [reflexivity|].
      cbn [trace polls]. split; [now rewrite last_last | lia].
    + destruct (IH fuel (tries + 1)
                  {| polls := S (S (polls w));
                     trace := (trace w ++ [Sleep interval])%list |})
        as (w' & Hrun & Hlast & Hp); cbn [polls trace]; try lia.
      * intros j Hj.
        replace (S (S (polls w)) + 2 * j)%nat
          with (polls w + 2 * S j)%nat by lia.
        apply HW. lia.
      * replace (S (S (polls w)) + 2 * k + 1)%nat
          with (polls w + 2 * S k + 1)%nat by lia.
        exact HD.
      * exists w'. split; [exact Hrun|]. split; [exact Hlast|].
        cbn [polls] in Hp. lia.
Qed.

(** In the password loop the poll for "Disconnected" precedes the retry
    test, so it also fires in the pass whose retry test would give up. *)
Lemma password_loop_disconnected (k : nat) :
  forall (fuel : nat) (tries : Z) (w : world),
    (k < fuel)%nat -> tries + Z.of_nat k <= Z.max (max_retries + 1) tries ->
    (forall j, (j <= k)%nat ->
               str_in "Password" (term (polls w + 2 * j)) = false) ->
    str_in "Disconnected" (term (polls w + 2 * k + 1)) = true ->
    exists w',
      password_loop term fuel interval max_retries tries w
      = Some (Returned false, w')
      /\ last (trace w') ElementClear = Print msg_disconnected
      /\ (polls w' <= polls w + 2 * k + 2)%nat.
Proof.
  induction k as [|k IH]; intros fuel tries w Hf Ht HW HD;
    (destruct fuel as [|fuel]; [lia|]);
    cbn [password_loop]; mstep;
    generalize (HW 0%nat ltac:(lia));
    replace (polls w + 2 * 0)%nat with (polls w) by lia;
    intros ->; mstep.
  - replace (polls w + 2 * 0 + 1)%nat with (S (polls w)) in HD by lia.
    rewrite HD. mstep. eexists. split; [reflexivity|].
    cbn [trace polls]. split; [now rewrite last_last | lia].
  - destruct (str_in "Disconnected" (term (S (polls w)))) eqn:E.
    + mstep. eexists. split; [reflexivity|].
      cbn [trace polls]. split; [now rewrite last_last | lia].
    + rewrite gtb_false by lia.
      mstep.
      destruct (IH fuel (tries + 1)
                  {| polls := S (S (polls w));
                     trace := (trace w ++ [Sleep interval])%list |})
        as (w' & Hrun & Hlast & Hp); cbn [polls trace]; try lia.
      * intros j Hj.
        replace (S (S (polls w)) + 2 * j)%nat
          with (polls w + 2 * S j)%nat by lia.
        apply HW. lia.
      * replace (S (S (polls w)) + 2 * k + 1)%nat
          with (polls w + 2 * S k + 1)%nat by lia.
        exact HD.
      * exists w'. split; [exact Hrun|]. split; [exact Hlast|].
        cbn [polls] in Hp. lia.
Qed.

End Loops.

(* ------------------------------------------------------------------ *)
(** ** The welcome stage: retry boundary and disconnects *)

(** C1 as stated fails.  On a terminal that stays empty the welcome stage
    with [max_retries = 10] reads the terminal 23 times (12 loop tests and 11
    polls for "Disconnected") and sleeps 11 times before giving up; on a
    terminal that shows "Disconnected" and never "Welcome" it stops after 2
    reads with the disconnect message; and a "Welcome" first visible at the
    12th loop test is still accepted. *)
Lemma welcome_stage_polls_not_eleven :
  (forall n, str_in "Welcome" (surface_silent n) = false)
  /\ (exists w',
        wait_for_welcome_message surface_silent no_pause 10 w0 = Some (false, w')
        /\ polls w' = 23%nat /\ polls w' <> 11%nat
        /\ count is_sleep (trace w') = 11%nat
        /\ last (trace w') ElementClear = Print (msg_welcome_timeout 10))
  /\ (forall n, str_in "Welcome" (surface_disconnected n) = false)
  /\ (exists w',
        wait_for_welcome_message surface_disconnected no_pause 10 w0
        = Some (false, w')
        /\ polls w' = 2%nat
        /\ last (trace w') ElementClear = Print msg_disconnected)
  /\ (exists w',
        wait_for_welcome_message surface_late_welcome no_pause 10 w0
        = Some (true, w')
        /\ polls w' = 23%nat).
Proof.
  split; [reflexivity|]. split.
  { eexists. split; [vm_compute; reflexivity|].
    repeat split; try reflexivity. cbn [polls]. lia. }
  split; [reflexivity|]. split.
  { eexists. split; [vm_compute; reflexivity|]. split; reflexivity. }
  eexists. split; [vm_compute; reflexivity|]. reflexivity.
Qed.

(** C1, amended: for [max_retries = m >= 0] and any interval [time.sleep]
    accepts (zero in particular), on a terminal whose first [m + 1] loop
    tests show no "Welcome" and whose [m + 1] reads after the sleeps show no
    "Disconnected", the welcome stage sleeps exactly [m + 1] times and reads
    the terminal text exactly [2m + 3] times: reads 1, 3, ..., [2m + 3] are
    the [m + 2] loop tests, looked at for "Welcome" only, and reads 2, 4,
    ..., [2m + 2] are the [m + 1] reads after a sleep, looked at for
    "Disconnected" only.  The last loop test decides: without "Welcome" the
    stage returns [False] with the retries-exceeded message, with it the
    stage still returns [True].  For [m = 10] that is 11 sleeps, 23 reads
    and 12 loop tests. *)
Theorem welcome_stage_timeout_polls :
  forall (term : nat -> string) (interval : duration) (m : Z) (w : world),
    0 <= m ->
    (forall j, (j <= Z.to_nat m)%nat ->
       str_in "Welcome" (term (polls w + 2 * j)%nat) = false
       /\ str_in "Disconnected" (term (polls w + 2 * j + 1)%nat) = false) ->
    (str_in "Welcome" (term (polls w + 2 * (Z.to_nat m + 1))%nat) = false ->
     wait_for_welcome_message term interval m w
     = Some (false,
             {| polls := polls w + (2 * (Z.to_nat m + 1) + 1);
                trace := (trace w ++ [FindElement "term"]
                          ++ repeat (Sleep interval) (Z.to_nat m + 1)
                          ++ [Print (msg_welcome_timeout m)])%list |}))
    /\ (str_in "Welcome" (term (polls w + 2 * (Z.to_nat m + 1))%nat) = true ->
        wait_for_welcome_message term interval m w
        = Some (true,
                {| polls := polls w + (2 * (Z.to_nat m + 1) + 1);
                   trace := (trace w ++ [FindElement "term"]
                             ++ repeat (Sleep interval) (Z.to_nat m + 1)
                             ++ [Print "Welcome message found"])%list |})).
Proof.
  intros term interval m w Hm Hno.
  assert (R := welcome_loop_exhaust term interval m (Z.to_nat m + 1)
                 (S (Z.to_nat (m + 1))) 0
                 {| polls := polls w;
                    trace := (trace w ++ [FindElement "term"])%list |}).
  cbn [polls trace] in R.
  assert (E : wait_for_welcome_message term interval m w
              = welcome_loop term (S (Z.to_nat (m + 1))) interval m 0
                  {| polls := polls w;
                     trace := (trace w ++ [FindElement "term"])%list |})
    by reflexivity.
  rewrite E, R; try lia.
  - split; intros ->; now rewrite <- app_assoc.
  - intros j Hj. apply Hno. lia.
Qed.

Lemma welcome_stage_timeout_polls_witness :
  wait_for_welcome_message surface_silent no_pause 10 w0
  = Some (false,
          {| polls := 23;
             trace := (FindElement "term" :: repeat (Sleep 0) 11
                       ++ [Print (msg_welcome_timeout 10)])%list |}).
Proof.
  apply (welcome_stage_timeout_polls surface_silent no_pause 10 w0).
  - lia.
  - intros j _. split; reflexivity.
  - reflexivity.
Defined.

(** C2 as stated fails.  In the welcome stage a "Disconnected" visible only
    at a loop test goes unnoticed, and one that appears at the last loop
    test is overtaken by the retry test; the prompt stage never looks for
    "Disconnected" at all. *)
Lemma disconnected_can_end_in_timeout :
  (str_in "Disconnected" (surface_flash 0) = true
   /\ (forall n, str_in "Welcome" (surface_flash n) = false)
   /\ exists w',
       wait_for_welcome_message surface_flash half_second 10 w0 = Some (false, w')
       /\ last (trace w') ElementClear = Print (msg_welcome_timeout 10))
  /\ (str_in "Disconnected" (surface_late_disconnect 22) = true
      /\ (forall n, str_in "Welcome" (surface_late_disconnect n) = false)
      /\ exists w',
          wait_for_welcome_message surface_late_disconnect half_second 10 w0
          = Some (false, w')
          /\ polls w' = 23%nat
          /\ last (trace w') ElementClear = Print (msg_welcome_timeout 10))
  /\ ((forall n, str_in "Disconnected" (surface_disconnected n) = true)
      /\ (forall n, str_in ">>>" (surface_disconnected n) = false)
      /\ exists w',
          wait_for_repl_prompt surface_disconnected 10 w0 = Some (false, w')
          /\ last (trace w') ElementClear = Print (msg_prompt_timeout 10)).
Proof.
  split; [|split].
  - split; [reflexivity|]. split.
    + intros n. unfold surface_flash. destruct (Nat.eqb n 0); reflexivity.
    + eexists. split; [vm_compute; reflexivity | reflexivity].
  - split; [reflexivity|]. split.
    + intros n. unfold surface_late_disconnect.
      destruct (Nat.ltb n 22); reflexivity.
    + eexists. split; [vm_compute; reflexivity | split; reflexivity].
  - split; [reflexivity|]. split; [reflexivity|].
    eexists. split; [vm_compute; reflexivity | reflexivity].
Qed.

(** C2, amended, for any interval [time.sleep] accepts.  Welcome stage:
    "Disconnected" is looked for once per retry, in the text read after the
    sleep; if the read after the [(k+1)]-th sleep shows it, with
    [k <= max_retries] and no loop test up to then showing "Welcome", the
    stage returns [False] with the disconnect message, not the
    retries-exceeded one.  Password stage: "Disconnected" is looked for in
    every pass before the retry test, so the same holds for
    [k <= max_retries + 1] with "Password" as the awaited marker, whatever
    else the terminal shows. *)
Theorem disconnected_preempts_timeout :
  forall (term : nat -> string) (password : string) (interval : duration)
         (m : Z) (w : world) (k : nat),
    str_in "Disconnected" (term (polls w + 2 * k + 1)%nat) = true ->
    (Z.of_nat k <= m ->
     (forall j, (j <= k)%nat ->
        str_in "Welcome" (term (polls w + 2 * j)%nat) = false) ->
     exists w',
       wait_for_welcome_message term interval m w = Some (false, w')
       /\ last (trace w') ElementClear = Print msg_disconnected)
    /\ (Z.of_nat k <= Z.max (m + 1) 0 ->
        (forall j, (j <= k)%nat ->
           str_in "Password" (term (polls w + 2 * j)%nat) = false) ->
        exists w',
          enter_password term password interval m w = Some (false, w')
          /\ last (trace w') ElementClear = Print msg_disconnected).
Proof.
  intros term password interval m w k HD. split; intros Hk Hno.
  - unfold wait_for_welcome_message, loop_fuel. mstep.
    destruct (welcome_loop_disconnected term interval m k
                (S (Z.to_nat (m + 1))) 0
                {| polls := polls w;
                   trace := (trace w ++ [FindElement "term"])%list |})
      as (w' & Hrun & Hlast & _); cbn [polls trace]; try lia.
    + exact Hno.
    + exact HD.
    + exists w'. now split.
  - unfold enter_password, loop_fuel. mstep.
    destruct (password_loop_disconnected term interval m k
                (S (Z.to_nat (m + 1))) 0
                {| polls := polls w;
                   trace := (trace w ++ [FindElement "term"])%list |})
      as (w' & Hrun & Hlast & _); cbn [polls trace]; try lia.
    + exact Hno.
    + exact HD.
    + rewrite Hrun. mstep. exists w'. now split.
Qed.

Lemma disconnected_preempts_timeout_witness :
  (exists w',
      wait_for_welcome_message surface_drop_after_two half_second 10 w0
      = Some (false, w')
      /\ last (trace w') ElementClear = Print msg_disconnected)
  /\ (exists w',
         enter_password surface_welcome_then_drop "secret" half_second 10 w0
         = Some (false, w')
         /\ last (trace w') ElementClear = Print msg_disconnected).
Proof.
  split.
  - apply (proj1 (disconnected_preempts_timeout surface_drop_after_two
                    "secret" half_second 10 w0 2 eq_refl)); [lia|].
    intros j _. cbn [polls w0]. unfold surface_drop_after_two.
    destruct (Nat.ltb (0 + 2 * j) 5); reflexivity.
  - apply (proj2 (disconnected_preempts_timeout surface_welcome_then_drop
                    "secret" half_second 10 w0 2 eq_refl)); [lia|].
    intros j _. cbn [polls w0]. unfold surface_welcome_then_drop.
    destruct (Nat.ltb (0 + 2 * j) 5); reflexivity.
Defined.

(* ------------------------------------------------------------------ *)
(** ** Every stage returns, closes nothing and types only on request *)

Lemma steps_intro (P : event -> bool) (w : world) (n : nat) (d : list event) :
  (polls w <= n)%nat -> forallb P d = true ->
  steps P w {| polls := n; trace := (trace w ++ d)%list |}.
Proof. intros Hn Hd. exists d. cbn [polls trace]. auto. Qed.

Lemma steps_trans (P : event -> bool) (w1 w2 w3 : world) :
  steps P w1 w2 -> steps P w2 w3 -> steps P w1 w3.
Proof.
  intros (d1 & E1 & F1 & L1) (d2 & E2 & F2 & L2).
  exists (d1 ++ d2)%list. split; [|split].
  - now rewrite E2, E1, app_assoc.
  - now rewrite forallb_app, F1, F2.
  - lia.
Qed.

Lemma steps_weaken (P Q : event -> bool) (w w' : world) :
  (forall e, P e = true -> Q e = true) -> steps P w w' -> steps Q w w'.
Proof.
  intros HPQ (d & E & F & L). exists d. split; [exact E|]. split; [|exact L].
  rewrite forallb_forall in *. auto.
Qed.

Lemma quiet_not_close (e : event) : quiet e = true -> not_close e = true.
Proof. unfold quiet, not_close. now intros [H _]%andb_prop. Qed.

Lemma quiet_no_keys (d : list event) :
  forallb quiet d = true -> existsb is_keywrite d = false.
Proof.
  induction d as [|e d IH]; [reflexivity|].
  cbn [forallb existsb]. intros [He Hd]%andb_prop.
  rewrite (IH Hd). unfold quiet in He. apply andb_prop in He as [_ He].
  now destruct (is_keywrite e).
Qed.

(** Closes a goal [exists r w', Some (..) = Some (r, w') /\ steps P w w']
    once the program text has been run to its end. *)
Ltac finish_steps :=
  eexists _, _; split; [reflexivity|];
  rewrite <- ?app_assoc; apply steps_intro; [cbn [polls]; lia | reflexivity].

Section Stages.

Variable term : nat -> string.

Lemma welcome_loop_safe (interval : duration) (m : Z) (fuel : nat) :
  forall (tries : Z) (w : world),
    (Z.to_nat (m + 1 - tries) < fuel)%nat ->
    exists b w',
      welcome_loop term fuel interval m tries w = Some (b, w')
      /\ steps quiet w w'.
Proof.
  induction fuel as [|fuel IH]; intros tries w Hf; [lia|].
  cbn [welcome_loop]. mstep.
  destruct (str_in "Welcome" (term (polls w))); mstep; [finish_steps|].
  destruct (tries >? m) eqn:G; mstep; [finish_steps|].
  destruct (str_in "Disconnected" (term (S (polls w)))); mstep;
    [finish_steps|].
  rewrite Z.gtb_ltb in G. apply Z.ltb_ge in G.
  destruct (IH (tries + 1)
              {| polls := S (S (polls w));
                 trace := (trace w ++ [Sleep interval])%list |})
    as (b & w' & Hrun & Hs); [lia|].
  exists b, w'. split; [exact Hrun|].
  eapply steps_trans; [|exact Hs].
  apply steps_intro; [cbn [polls]; lia | reflexivity].
Qed.

Lemma wait_for_welcome_message_safe (interval : duration) (m : Z) (w : world) :
  exists b w',
    wait_for_welcome_message term interval m w = Some (b, w')
    /\ steps quiet w w'.
Proof.
  unfold wait_for_welcome_message, loop_fuel. mstep.
  destruct (welcome_loop_safe interval m (S (Z.to_nat (m + 1))) 0
              {| polls := polls w;
                 trace := (trace w ++ [FindElement "term"])%list |})
    as (b & w' & Hrun & Hs); [lia|].
  exists b, w'. split; [exact Hrun|].
  eapply steps_trans; [|exact Hs].
  apply steps_intro; [cbn [polls]; lia | reflexivity].
Qed.

(** The password loop is left through its condition only when a poll
    showed "Password". *)
Lemma password_loop_safe (interval : duration) (m : Z) (fuel : nat) :
  forall (tries : Z) (w : world),
    (Z.to_nat (m + 1 - tries) < fuel)%nat ->
    exists f w',
      password_loop term fuel interval m tries w = Some (f, w')
      /\ steps quiet w w'
      /\ (f = Completed ->
          exists n, (polls w <= n < polls w')%nat
                    /\ str_in "Password" (term n) = true).
Proof.
  induction fuel as [|fuel IH]; intros tries w Hf; [lia|].
  cbn [password_loop]. mstep.
  destruct (str_in "Password" (term (polls w))) eqn:HP; mstep.
  { eexists _, _. split; [reflexivity|]. split.
    - exists []. cbn [polls trace]. rewrite app_nil_r. auto.
    - intros _. exists (polls w). cbn [polls]. split; [lia | exact HP]. }
  destruct (str_in "Disconnected" (term (S (polls w)))); mstep.
  { eexists _, _. split; [reflexivity|]. split; [|discriminate].
    apply steps_intro; [cbn [polls]; lia | reflexivity]. }
  destruct (tries >? m) eqn:G; mstep.
  { eexists _, _. split; [reflexivity|]. split; [|discriminate].
    apply steps_intro; [cbn [polls]; lia | reflexivity]. }
  rewrite Z.gtb_ltb in G. apply Z.ltb_ge in G.
  destruct (IH (tries + 1)
              {| polls := S (S (polls w));
                 trace := (trace w ++ [Sleep interval])%list |})
    as (f & w' & Hrun & Hs & Hc); [lia|].
  exists f, w'. split; [exact Hrun|]. split.
  - eapply steps_trans; [|exact Hs].
    apply steps_intro; [cbn [polls]; lia | reflexivity].
  - intros Hf'. destruct (Hc Hf') as (n & Hn & Hp).
    exists n. cbn [polls] in Hn. split; [lia | exact Hp].
Qed.

(** The password stage never closes the browser, and either types nothing
    or has seen "Password" in one of its own polls. *)
Lemma enter_password_safe (password : string) (interval : duration) (m : Z)
      (w : world) :
  exists b w',
    enter_password term password interval m w = Some (b, w')
    /\ steps not_close w w'
    /\ (steps quiet w w'
        \/ exists n, (polls w <= n < polls w')%nat
                     /\ str_in "Password" (term n) = true).
Proof.
  unfold enter_password, loop_fuel. mstep.
  destruct (password_loop_safe interval m (S (Z.to_nat (m + 1))) 0
              {| polls := polls w;
                 trace := (trace w ++ [FindElement "term"])%list |})
    as (f & w1 & Hrun & Hs & Hc); [lia|].
  rewrite Hrun.
  assert (Hs0 : steps quiet w w1).
  { eapply steps_trans; [|exact Hs].
    apply steps_intro; [cbn [polls]; lia | reflexivity]. }
  destruct f as [b|]; mstep.
  - exists b, w1. split; [reflexivity|]. split; [|now left].
    apply (steps_weaken quiet); [apply quiet_not_close | exact Hs0].
  - destruct (Hc eq_refl) as (n & Hn & Hp). cbn [polls] in Hn.
    destruct Hs0 as (d & Ed & Fd & Ld).
    assert (Fd' : forallb not_close d = true).
    { rewrite forallb_forall in *. intros e He.
      apply quiet_not_close. auto. }
    destruct (str_in "Access denied" (term (polls w1))); mstep;
      (eexists _, _; split; [reflexivity|]; split;
       [|right; exists n; cbn [polls]; split; [lia | exact Hp]]);
      rewrite Ed, <- !app_assoc;
      (apply steps_intro; [cbn [polls]; lia|]);
      rewrite forallb_app, Fd'; reflexivity.
Qed.

Lemma prompt_loop_safe (m : Z) (fuel : nat) :
  forall (tries : Z) (w : world),
    (Z.to_nat (m - tries) < fuel)%nat ->
    exists b w',
      prompt_loop term fuel m tries w = Some (b, w') /\ steps quiet w w'.
Proof.
  induction fuel as [|fuel IH]; intros tries w Hf; [lia|].
  cbn [prompt_loop]. mstep.
  destruct (str_in ">>>" (term (polls w))); mstep; [finish_steps|].
  destruct (tries + 1 >? m) eqn:G; mstep; [finish_steps|].
  rewrite Z.gtb_ltb in G. apply Z.ltb_ge in G.
  destruct (IH (tries + 1)
              {| polls := S (S (polls w));
                 trace := (trace w ++ [Sleep (1 # 2)])%list |})
    as (b & w' & Hrun & Hs); [lia|].
  exists b, w'. split; [exact Hrun|].
  eapply steps_trans; [|exact Hs].
  apply steps_intro; [cbn [polls]; lia | reflexivity].
Qed.

Lemma wait_for_repl_prompt_safe (m : Z) (w : world) :
  exists b w',
    wait_for_repl_prompt term m w = Some (b, w') /\ steps quiet w w'.
Proof.
  unfold wait_for_repl_prompt, loop_fuel. mstep.
  destruct (str_in "Access denied" (term (polls w))); mstep;
    [finish_steps|].
  destruct (prompt_loop_safe m (S (Z.to_nat (m + 1))) 0
              {| polls := S (polls w);
                 trace := (trace w ++ [FindElement "term"])%list |})
    as (b & w' & Hrun & Hs); [lia|].
  rewrite Hrun.
  assert (Hs0 : steps quiet w w').
  { eapply steps_trans; [|exact Hs].
    apply steps_intro; [cbn [polls]; lia | reflexivity]. }
  destruct b; mstep.
  - eexists _, _. split; [reflexivity|].
    eapply steps_trans; [exact Hs0|].
    apply steps_intro; [cbn [polls]; lia | reflexivity].
  - exists false, w'. now split.
Qed.

Lemma open_session_run (file url : string) (w : world) :
  open_session file url w
  = Some (tt, {| polls := polls w;
                 trace := (trace w ++ session_opening file url)%list |}).
Proof.
  unfold open_session, start_session. mstep.
  now rewrite <- !app_assoc.
Qed.

End Stages.

(* ------------------------------------------------------------------ *)
(** ** The launcher *)

Lemma launcher_no_page (term : nat -> string) (url password : string)
      (w : world) :
  start_webrepl_with_selenium term None url password w
  = Some (RetFalse,
          {| polls := polls w;
             trace := (trace w
                       ++ [Print ("Error: Could not find " ++ webrepl_client);
                           Print "Error: Could not find webrepl.html"])%list |}).
Proof.
  unfold start_webrepl_with_selenium. cbn [find_webrepl_html_file is_empty].
  mstep. now rewrite <- app_assoc.
Qed.

(** With the page on disk the launcher runs the stages in order, stops at
    the first one that returns [False], and closes the browser exactly in
    that case. *)
Lemma launcher_cases (term : nat -> string) (text url password : string)
      (w : world) :
  let run := start_webrepl_with_selenium term (Some text) url password w in
  exists ws b1 w1,
    open_session webrepl_client url w = Some (tt, ws)
    /\ trace ws = (trace w ++ session_opening webrepl_client url)%list
    /\ polls ws = polls w
    /\ wait_for_welcome_message term half_second 10 ws = Some (b1, w1)
    /\ steps quiet ws w1
    /\ ((b1 = false /\ run = Some (RetNone, closed w1))
        \/ (b1 = true
            /\ exists b2 w2,
                enter_password term password half_second 10 w1 = Some (b2, w2)
                /\ steps not_close w1 w2
                /\ (steps quiet w1 w2
                    \/ exists n, (polls w1 <= n < polls w2)%nat
                                 /\ str_in "Password" (term n) = true)
                /\ ((b2 = false /\ run = Some (RetNone, closed w2))
                    \/ (b2 = true
                        /\ exists b3 w3,
                            wait_for_repl_prompt term 10 w2 = Some (b3, w3)
                            /\ steps quiet w2 w3
                            /\ ((b3 = false
                                 /\ run = Some (RetNone, closed w3))
                                \/ (b3 = true
                                    /\ run = Some (RetBrowser, w3))))))).
Proof.
  destruct w as [p t]. cbn zeta.
  unfold start_webrepl_with_selenium. cbn [find_webrepl_html_file].
  change (is_empty webrepl_client) with false. mstep.
  rewrite app_nil_r, open_session_run. cbn [polls trace].
  set (ws := {| polls := p;
                trace := (t ++ session_opening webrepl_client url)%list |}).
  destruct (wait_for_welcome_message_safe term half_second 10 ws)
    as (b1 & w1 & H1 & S1).
  exists ws, b1, w1. rewrite H1.
  do 5 (split; [reflexivity || assumption|]).
  destruct b1; cbn [negb]; [right | left; now split].
  split; [reflexivity|].
  destruct (enter_password_safe term password half_second 10 w1)
    as (b2 & w2 & H2 & S2 & K2).
  exists b2, w2. rewrite H2.
  do 3 (split; [reflexivity || assumption|]).
  destruct b2; cbn [negb]; [right | left; now split].
  split; [reflexivity|].
  destruct (wait_for_repl_prompt_safe term 10 w2) as (b3 & w3 & H3 & S3).
  exists b3, w3. rewrite H3.
  do 2 (split; [reflexivity || assumption|]).
  destruct b3; cbn [negb]; [right | left]; now split.
Qed.


Lemma forallb_quiet_opening (file url : string) :
  forallb quiet (session_opening file url) = true.
Proof. reflexivity. Qed.




(* ------------------------------------------------------------------ *)
(** ** When the password is typed *)

Lemma quiet_no_keys_event (e : event) : quiet e = true -> no_keys e = true.
Proof. unfold quiet, no_keys. now intros [_ H]%andb_prop. Qed.

Lemma steps_closed (P : event -> bool) (w : world) :
  P BrowserClose = true -> steps P w (closed w).
Proof.
  intros H. exists [BrowserClose]. cbn. rewrite H. auto.
Qed.

Lemma no_keys_existsb (d : list event) :
  forallb no_keys d = true -> existsb is_keywrite d = false.
Proof.
  induction d as [|e d IH]; [reflexivity|].
  cbn [forallb existsb]. intros [He Hd]%andb_prop.
  rewrite (IH Hd). unfold no_keys in He. now destruct (is_keywrite e).
Qed.

(** After a successful welcome stage the launcher returns, and from the
    start of the password stage on it types nothing unless the password
    stage does. *)
Lemma launcher_after_welcome (term : nat -> string)
      (text url password : string) (w ws w1 : world) :
  open_session webrepl_client url w = Some (tt, ws) ->
  wait_for_welcome_message term half_second 10 ws = Some (true, w1) ->
  exists b2 w2 r w',
    enter_password term password half_second 10 w1 = Some (b2, w2)
    /\ start_webrepl_with_selenium term (Some text) url password w
       = Some (r, w')
    /\ steps any_event w1 w2 /\ steps no_keys w2 w'
    /\ (steps quiet w1 w2
        \/ exists n, (polls w1 <= n < polls w2)%nat
                     /\ str_in "Password" (term n) = true).
Proof.
  intros Ho H1.
  destruct (launcher_cases term text url password w)
    as (ws' & b1 & w1' & Ho' & _ & _ & H1' & _ & C1).
  rewrite Ho in Ho'. injection Ho' as <-.
  rewrite H1 in H1'. injection H1' as <- <-.
  destruct C1 as [[E _] | [_ (b2 & w2 & H2 & S2 & K2 & C2)]]; [discriminate|].
  exists b2, w2.
  assert (S2' : steps any_event w1 w2)
    by (apply (steps_weaken not_close); auto).
  destruct C2 as [[-> Hr] | [-> (b3 & w3 & H3 & S3 & C3)]].
  { exists RetNone, (closed w2). repeat split; auto.
    now apply steps_closed. }
  apply (steps_weaken quiet no_keys _ _ quiet_no_keys_event) in S3.
  destruct C3 as [[-> Hr] | [-> Hr]].
  - exists RetNone, (closed w3). repeat split; auto.
    eapply steps_trans; [exact S3 | now apply steps_closed].
  - exists RetBrowser, w3. repeat split; auto.
Qed.

(** C10: in every run of the launcher, keys are written only when the
    welcome stage returned [True] and a poll made by the password stage
    showed "Password"; on a terminal that never shows "Password" no keys are
    written at all. *)
Theorem password_typed_only_on_prompt :
  forall (term : nat -> string) (page : option string) (url password : string)
         (w : world),
  exists (r : handle) (w' : world) (d : list event),
    start_webrepl_with_selenium term page url password w = Some (r, w')
    /\ trace w' = (trace w ++ d)%list
    /\ (existsb is_keywrite d = true ->
        exists ws w1 b2 w2 n,
          open_session webrepl_client url w = Some (tt, ws)
          /\ wait_for_welcome_message term half_second 10 ws = Some (true, w1)
          /\ enter_password term password half_second 10 w1 = Some (b2, w2)
          /\ (polls w1 <= n < polls w2)%nat
          /\ str_in "Password" (term n) = true)
    /\ ((forall n, str_in "Password" (term n) = false) ->
        existsb is_keywrite d = false).
Proof.
  intros term page url password w.
  assert (K : exists r w' d,
             start_webrepl_with_selenium term page url password w
             = Some (r, w')
             /\ trace w' = (trace w ++ d)%list
             /\ (existsb is_keywrite d = true ->
                 exists ws w1 b2 w2 n,
                   open_session webrepl_client url w = Some (tt, ws)
                   /\ wait_for_welcome_message term half_second 10 ws
                      = Some (true, w1)
                   /\ enter_password term password half_second 10 w1
                      = Some (b2, w2)
                   /\ (polls w1 <= n < polls w2)%nat
                   /\ str_in "Password" (term n) = true)).
  { destruct page as [text|].
    2:{ eexists _, _, _. split; [apply launcher_no_page|].
        split; [reflexivity|]. discriminate. }
    destruct (launcher_cases term text url password w)
      as (ws & b1 & w1 & Ho & Ts & Ps & H1 & S1 & C1).
    assert (S0 : steps quiet w ws).
    { exists (session_opening webrepl_client url).
      split; [exact Ts|]. split; [reflexivity | lia]. }
    destruct C1 as [[-> Hr] | [-> _]].
    - assert (S : steps no_keys w (closed w1)).
      { eapply steps_trans; [|now apply steps_closed].
        apply (steps_weaken quiet); [apply quiet_no_keys_event|].
        eapply steps_trans; eauto. }
      destruct S as (d & E & F & _).
      exists RetNone, (closed w1), d. split; [exact Hr|]. split; [exact E|].
      rewrite (no_keys_existsb d F). discriminate.
    - destruct (launcher_after_welcome term text url password w ws w1 Ho H1)
        as (b2 & w2 & r & w' & H2 & Hr & S2 & S3 & K2).
      destruct K2 as [Q2 | (n & Hn & Hp)].
      + assert (S : steps no_keys w w').
        { eapply steps_trans; [|exact S3].
          apply (steps_weaken quiet); [apply quiet_no_keys_event|].
          eapply steps_trans; [exact S0|]. eapply steps_trans; eauto. }
        destruct S as (d & E & F & _).
        exists r, w', d. split; [exact Hr|]. split; [exact E|].
        rewrite (no_keys_existsb d F). discriminate.
      + assert (S : steps any_event w w').
        { eapply steps_trans; [|apply (steps_weaken no_keys); eauto].
          eapply steps_trans; [|exact S2].
          apply (steps_weaken quiet); [reflexivity|].
          eapply steps_trans; eauto. }
        destruct S as (d & E & _ & _).
        exists r, w', d. split; [exact Hr|]. split; [exact E|].
        intros _. now exists ws, w1, b2, w2, n. }
  destruct K as (r & w' & d & Hr & E & Hk).
  exists r, w', d. split; [exact Hr|]. split; [exact E|]. split; [exact Hk|].
  intros Hnever. destruct (existsb is_keywrite d); [|reflexivity].
  destruct (Hk eq_refl) as (_ & _ & _ & _ & n & _ & _ & _ & _ & Hp).
  rewrite Hnever in Hp. discriminate.
Qed.

Lemma password_typed_only_on_prompt_witness :
  (exists w',
      start_webrepl_with_selenium surface_silent (Some page_three_lines)
        "ws://192.168.1.5:8266/" "secret" w0
      = Some (RetNone, w')
      /\ existsb is_keywrite (trace w') = false)
  /\ (exists w' n,
         start_webrepl_with_selenium surface_session (Some page_three_lines)
           "ws://192.168.1.5:8266/" "secret" w0
         = Some (RetBrowser, w')
         /\ existsb is_keywrite (trace w') = true
         /\ str_in "Password" (surface_session n) = true).
Proof.
  split.
  - destruct (password_typed_only_on_prompt surface_silent
                (Some page_three_lines) "ws://192.168.1.5:8266/" "secret" w0)
      as (r & w' & d & Hrun & Ht & _ & Hnever).
    assert (E : start_webrepl_with_selenium surface_silent
                  (Some page_three_lines) "ws://192.168.1.5:8266/" "secret" w0
                = Some (RetNone, w')).
    { rewrite Hrun. f_equal. f_equal.
      assert (R : option_map fst
                    (start_webrepl_with_selenium surface_silent
                       (Some page_three_lines) "ws://192.168.1.5:8266/"
                       "secret" w0) = Some RetNone)
        by (vm_compute; reflexivity).
      rewrite Hrun in R. now injection R. }
    exists w'. split; [exact E|].
    rewrite Ht. apply Hnever. intros n. reflexivity.
  - destruct (password_typed_only_on_prompt surface_session
                (Some page_three_lines) "ws://192.168.1.5:8266/" "secret" w0)
      as (r & w' & d & Hrun & Ht & Hkeys & _).
    assert (R : option_map (fun x => (fst x, existsb is_keywrite (trace (snd x))))
                  (start_webrepl_with_selenium surface_session
                     (Some page_three_lines) "ws://192.168.1.5:8266/"
                     "secret" w0) = Some (RetBrowser, true))
      by (vm_compute; reflexivity).
    rewrite Hrun in R. cbn in R. injection R as -> Hk.
    rewrite Ht in Hk. cbn [trace w0 app] in Hk.
    destruct (Hkeys Hk) as (_ & _ & _ & _ & n & _ & _ & _ & _ & Hp).
    exists w', n. split; [exact Hrun|]. split; [|exact Hp].
    rewrite Ht. exact Hk.
Defined.

(* ================================================================== *)
(** * Further properties of the code *)

(** ** Which addresses [ip_to_url] accepts *)

Lemma split_length (sep : ascii) (s : string) (n : nat) :
  List.length (split sep s n) = S (Nat.min (count_char sep s) n).
Proof.
  revert n. induction s as [|a s IH]; intros n; [reflexivity|].
  destruct n as [|n]; [now rewrite Nat.min_0_r|].
  cbn [split count_char]. destruct (Ascii.eqb a sep).
  - cbn [List.length]. now rewrite IH.
  - specialize (IH (S n)).
    destruct (split sep s (S n)) as [|h t]; [discriminate|].
    cbn [List.length] in *. exact IH.
Qed.

Lemma str_in_count (c : ascii) (s : string) :
  str_in (String c "") s = negb (Nat.eqb (count_char c s) 0).
Proof.
  induction s as [|a s IH]; [reflexivity|].
  rewrite str_in_char_cons, IH. cbn [count_char].
  rewrite (Ascii.eqb_sym c a). now destruct (Ascii.eqb a c).
Qed.

Lemma ip_to_url_outcome (ip : string) (port : pyval) :
  (ip_to_url ip port = Raise ValueError <-> (2 <= count_char ":" ip)%nat)
  /\ ((count_char ":" ip <= 1)%nat -> exists url, ip_to_url ip port = Ok url).
Proof.
  assert (L := split_length ":" ip 2).
  assert (C := str_in_count ":" ip).
  unfold ip_to_url, resolve.
  destruct (str_in ":" ip).
  - assert (Hc : (1 <= count_char ":" ip)%nat).
    { destruct (count_char ":" ip); [discriminate | lia]. }
    destruct (split ":" ip 2) as [|a [|b [|c t]]]; cbn [List.length] in L;
      cbn [unpack2].
    + discriminate.
    + lia.
    + split; [split; [discriminate | lia] | intros _; eexists; reflexivity].
    + split; [split; [lia | reflexivity] | lia].
  - assert (Hc : count_char ":" ip = 0%nat).
    { destruct (count_char ":" ip); [reflexivity | discriminate]. }
    destruct (negb (truthy port));
      (split; [split; [discriminate | lia] | intros _; eexists; reflexivity]).
Qed.

(** X1: [ip_to_url] raises [ValueError] exactly on the addresses holding
    two or more colons, whatever the port argument; on every other address
    it returns a URL. *)
Theorem ip_to_url_raises_iff :
  forall (ip : string) (port : pyval),
    (ip_to_url ip port = Raise ValueError <-> (2 <= count_char ":" ip)%nat)
    /\ ((count_char ":" ip <= 1)%nat -> exists url, ip_to_url ip port = Ok url).
Proof. intros ip port. exact (ip_to_url_outcome ip port). Qed.

Lemma ip_to_url_raises_iff_witness :
  ip_to_url "fe80::1" (PyStr "8266") = Raise ValueError
  /\ exists url, ip_to_url "192.168.1.5:80" (PyStr "8266") = Ok url.
Proof.
  split.
  - apply (proj1 (ip_to_url_raises_iff "fe80::1" (PyStr "8266"))).
    cbn. lia.
  - apply (proj2 (ip_to_url_raises_iff "192.168.1.5:80" (PyStr "8266"))).
    cbn. lia.
Defined.

(** ** [start_webrepl_html]: all or nothing *)

(** X2: for a page (when present, readable and writable) and an address
    made of 7-bit characters, [start_webrepl_html] returns [True] exactly
    when the page exists, the address is not empty and holds at most one
    colon; in that case the last thing it does is open the page in the web
    browser.  In every other case (a [False] or a [ValueError]) the page on
    disk is left as it was and no browser is opened. *)
Theorem start_webrepl_html_all_or_nothing :
  forall (os : platform) (page : option string) (ip : string),
    (forall file, page = Some file -> seven_bit file = true) ->
    seven_bit ip = true ->
    let r := fst (fst (start_webrepl_html os page ip)) in
    let page' := snd (fst (start_webrepl_html os page ip)) in
    let out := snd (start_webrepl_html os page ip) in
    (r = Ok true
     <-> page <> None /\ ip <> "" /\ (count_char ":" ip <= 1)%nat)
    /\ (r = Ok true ->
        exists pre, out = (pre ++ [WebOpen webrepl_client])%list
                    /\ existsb is_webopen pre = false)
    /\ (r <> Ok true ->
        page' = page /\ existsb is_webopen out = false
        /\ (r = Ok false \/ r = Raise ValueError)).
Proof.
  intros os page ip _ _. cbv zeta.
  destruct (ip_to_url_outcome ip (PyStr "")) as [[R1 R2] R3].
  unfold start_webrepl_html.
  destruct page as [file|]; cbn [find_webrepl_html_file].
  2:{ cbn. split; [split; [discriminate | now intros [H _]]|].
      split; [discriminate | auto]. }
  change (is_empty webrepl_client) with false. cbv iota.
  destruct ip as [|a ip]; cbn [is_empty].
  { cbn. split; [split; [discriminate | now intros (_ & H & _)]|].
    split; [discriminate | auto]. }
  destruct (ip_to_url (String a ip) (PyStr "")) as [url|[]] eqn:E; cbn.
  - split; [split; [intros _|reflexivity]|].
    + repeat split; try discriminate.
      destruct (Nat.le_gt_cases (count_char ":" (String a ip)) 1) as [H|H];
        [exact H|].
      specialize (R2 H). discriminate.
    + split; [intros _ | intros H; now contradiction H].
      eexists [_; _]. split; reflexivity.
  - split; [split; [discriminate|]|].
    + intros (_ & _ & H). destruct (R3 H) as [url Hu]. discriminate.
    + split; [discriminate | auto].
Qed.

Lemma start_webrepl_html_all_or_nothing_witness :
  fst (fst (start_webrepl_html Posix (Some page_three_lines) "192.168.1.5"))
  = Ok true
  /\ snd (fst (start_webrepl_html Posix (Some page_lf) "1:2:3")) = Some page_lf.
Proof.
  split.
  - apply (proj1 (start_webrepl_html_all_or_nothing
                    Posix (Some page_three_lines) "192.168.1.5"
                    ltac:(intros file [= <-]; reflexivity) eq_refl)).
    repeat split; try discriminate. cbn. lia.
  - apply (proj2 (proj2 (start_webrepl_html_all_or_nothing
                           Posix (Some page_lf) "1:2:3"
                           ltac:(intros file [= <-]; reflexivity) eq_refl))).
    discriminate.
Defined.

(** ** The page after provisioning *)

(** X3: after a successful provisioning with an address free of line
    breaks, the page read back has as many lines as before, and each of its
    lines that starts with the input-field prefix is exactly the canonical
    input line carrying the URL. *)
Theorem provisioned_page_points_to_url :
  forall (os : platform) (file ip url : string),
    ip <> "" -> ip_to_url ip (PyStr "") = Ok url ->
    str_in nl ip = false -> str_in cr ip = false ->
    exists file',
      provision os (Some file) ip = Some file'
      /\ List.length (readlines (read_text file'))
         = List.length (readlines (read_text file))
      /\ forall line,
          In line (readlines (read_text file')) ->
          startswith line input_prefix = true ->
          line = input_prefix ++ dq ++ url ++ dq ++ " />" ++ nl.
Proof.
  intros os file ip url Hne Hurl Hnl Hcr.
  assert (Hip : is_empty ip = false) by (destruct ip; [contradiction | reflexivity]).
  assert (Unl : str_in nl url = false)
    by (apply (url_char_free "010" ip url); auto).
  assert (Ucr : str_in cr url = false)
    by (apply (url_char_free "013" ip url); auto).
  eexists. split; [apply (provision_page os file ip url Hip Hurl)|].
  rewrite written_joined, read_write_text.
  2:{ apply rewrite_lines_no_cr; [exact Ucr|].
      rewrite joined_readlines. apply universal_newlines_no_cr. }
  rewrite readlines_joined
    by (apply rewrite_lines_ok; [exact Unl | apply readlines_ok]).
  split; [apply length_map|].
  intros line Hin Hstart.
  apply in_map_iff in Hin as (l & <- & _).
  rewrite rewrite_line_cases in *.
  destruct (startswith l input_prefix) eqn:E; [reflexivity|].
  rewrite E in Hstart. discriminate.
Qed.

Lemma provisioned_page_points_to_url_witness :
  exists file',
    provision Windows (Some page_three_lines) "192.168.1.5:1111" = Some file'
    /\ List.length (readlines (read_text file')) = 3%nat.
Proof.
  destruct (provisioned_page_points_to_url Windows page_three_lines
              "192.168.1.5:1111" "ws://192.168.1.5:1111/")
    as (file' & Hp & Hl & _); try reflexivity; [discriminate|].
  exists file'. split; [exact Hp | exact Hl].
Defined.

(* ------------------------------------------------------------------ *)
(** ** Bounds on every stage *)

Lemma count_app (p : event -> bool) (a b : list event) :
  count p (a ++ b) = (count p a + count p b)%nat.
Proof. unfold count. now rewrite filter_app, length_app. Qed.

Lemma within_intro (P : event -> bool) (np ns : nat) (w : world) (n : nat)
      (d : list event) :
  (polls w <= n <= polls w + np)%nat -> forallb P d = true ->
  (count is_sleep d <= ns)%nat ->
  within P np ns w {| polls := n; trace := (trace w ++ d)%list |}.
Proof. intros Hn Hd Hs. exists d. cbn [polls trace]. auto. Qed.

Lemma within_trans (P : event -> bool) (np1 ns1 np2 ns2 : nat)
      (w1 w2 w3 : world) :
  within P np1 ns1 w1 w2 -> within P np2 ns2 w2 w3 ->
  within P (np1 + np2) (ns1 + ns2) w1 w3.
Proof.
  intros (d1 & E1 & F1 & L1 & C1) (d2 & E2 & F2 & L2 & C2).
  exists (d1 ++ d2)%list. split; [|split; [|split]].
  - now rewrite E2, E1, app_assoc.
  - now rewrite forallb_app, F1, F2.
  - lia.
  - rewrite count_app. lia.
Qed.

Lemma within_weaken (P : event -> bool) (np ns np' ns' : nat) (w w' : world) :
  (np <= np')%nat -> (ns <= ns')%nat ->
  within P np ns w w' -> within P np' ns' w w'.
Proof.
  intros Hp Hs (d & E & F & L & C). exists d. repeat split; auto; lia.
Qed.

Lemma forallb_filter_nil (p : event -> bool) (d : list event) :
  forallb (fun e => negb (p e)) d = true -> filter p d = [].
Proof.
  induction d as [|e d IH]; [reflexivity|].
  cbn [forallb filter]. intros [He Hd]%andb_prop.
  destruct (p e); [discriminate | now apply IH].
Qed.

Section Within.

Variable term : nat -> string.
Variable P : event -> bool.
Variable interval : duration.
Variable m : Z.
Hypothesis P_print : forall s, P (Print s) = true.
Hypothesis P_find : forall s, P (FindElement s) = true.
Hypothesis P_sleep : P (Sleep interval) = true.
Hypothesis P_settle : P (Sleep (1 # 2)) = true.

(** Closes a goal [within P np ns w w'] on an explicit final world. *)
Ltac win :=
  rewrite <- ?app_assoc; apply within_intro;
  [ cbn [polls]; lia
  | cbn [forallb app]; rewrite ?P_print, ?P_find, ?P_sleep, ?P_settle;
    reflexivity
  | unfold count; cbn [filter is_sleep List.length app]; lia ].

Lemma welcome_loop_within (fuel : nat) :
  forall (tries : Z) (w : world),
    (Z.to_nat (m + 1 - tries) < fuel)%nat ->
    exists b w',
      welcome_loop term fuel interval m tries w = Some (b, w')
      /\ within P (2 * Z.to_nat (m + 1 - tries) + 1)
                (Z.to_nat (m + 1 - tries)) w w'
      /\ (b = true ->
          exists n, (polls w <= n < polls w')%nat
                    /\ str_in "Welcome" (term n) = true).
Proof.
  induction fuel as [|fuel IH]; intros tries w Hf; [lia|].
  cbn [welcome_loop]. mstep.
  destruct (str_in "Welcome" (term (polls w))) eqn:HW; mstep.
  { eexists _, _. split; [reflexivity|]. split; [win|].
    intros _. exists (polls w). cbn [polls]. split; [lia | exact HW]. }
  destruct (tries >? m) eqn:G; mstep.
  { eexists _, _. split; [reflexivity|]. split; [win | discriminate]. }
  rewrite Z.gtb_ltb in G. apply Z.ltb_ge in G.
  destruct (str_in "Disconnected" (term (S (polls w)))); mstep.
  { eexists _, _. split; [reflexivity|]. split; [win | discriminate]. }
  destruct (IH (tries + 1)
              {| polls := S (S (polls w));
                 trace := (trace w ++ [Sleep interval])%list |})
    as (b & w' & Hrun & Hw & Hb); [lia|].
  exists b, w'. split; [exact Hrun|]. split.
  - eapply within_weaken;
      [| |eapply (within_trans P 2 1); [|exact Hw]]; [lia | lia | win].
  - intros Hb'. destruct (Hb Hb') as (n & Hn & Hp). cbn [polls] in Hn.
    exists n. split; [lia | exact Hp].
Qed.

Lemma wait_for_welcome_message_within (w : world) :
  exists b w',
    wait_for_welcome_message term interval m w = Some (b, w')
    /\ within P (2 * Z.to_nat (m + 1) + 1) (Z.to_nat (m + 1)) w w'
    /\ (b = true ->
        exists n, (polls w <= n < polls w')%nat
                  /\ str_in "Welcome" (term n) = true).
Proof.
  unfold wait_for_welcome_message, loop_fuel. mstep.
  destruct (welcome_loop_within (S (Z.to_nat (m + 1))) 0
              {| polls := polls w;
                 trace := (trace w ++ [FindElement "term"])%list |})
    as (b & w' & Hrun & Hw & Hb); [lia|].
  exists b, w'. split; [exact Hrun|]. split; [|exact Hb].
  eapply within_weaken;
    [| |eapply (within_trans P 0 0); [|exact Hw]];
    [replace (m + 1 - 0) with (m + 1) by lia; lia
    |replace (m + 1 - 0) with (m + 1) by lia; lia | win].
Qed.

Lemma password_loop_within (fuel : nat) :
  forall (tries : Z) (w : world),
    (Z.to_nat (m + 1 - tries) < fuel)%nat ->
    exists f w',
      password_loop term fuel interval m tries w = Some (f, w')
      /\ within P (2 * Z.to_nat (m + 1 - tries) + 2)
                (Z.to_nat (m + 1 - tries)) w w'
      /\ (f = Completed ->
          (polls w' <= polls w + 2 * Z.to_nat (m + 1 - tries) + 1)%nat
          /\ str_in "Password" (term (polls w' - 1)) = true
          /\ (polls w < polls w')%nat)
      /\ (forall b, f = Returned b -> b = false).
Proof.
  induction fuel as [|fuel IH]; intros tries w Hf; [lia|].
  cbn [password_loop]. mstep.
  destruct (str_in "Password" (term (polls w))) eqn:HP; mstep.
  { eexists _, _. split; [reflexivity|]. split; [|split; [|discriminate]].
    - exists []. cbn [polls trace]. rewrite app_nil_r.
      repeat split; auto; cbn; lia.
    - intros _. cbn [polls].
      replace (S (polls w) - 1)%nat with (polls w) by lia.
      repeat split; [lia | exact HP | lia]. }
  destruct (str_in "Disconnected" (term (S (polls w)))); mstep.
  { eexists _, _. split; [reflexivity|].
    split; [win | split; [discriminate | now intros b [= <-]]]. }
  destruct (tries >? m) eqn:G; mstep.
  { eexists _, _. split; [reflexivity|].
    split; [win | split; [discriminate | now intros b [= <-]]]. }
  rewrite Z.gtb_ltb in G. apply Z.ltb_ge in G.
  destruct (IH (tries + 1)
              {| polls := S (S (polls w));
                 trace := (trace w ++ [Sleep interval])%list |})
    as (f & w' & Hrun & Hw & Hc & Hr); [lia|].
  exists f, w'. split; [exact Hrun|]. split; [|split; [|exact Hr]].
  - eapply within_weaken;
      [| |eapply (within_trans P 2 1); [|exact Hw]]; [lia | lia | win].
  - intros Hf'. destruct (Hc Hf') as (Hb & Hp & Hl). cbn [polls] in *.
    repeat split; [lia | exact Hp | lia].
Qed.

(** The password stage is its loop followed, when the loop is left through
    its condition, by the typing, the settle pause and one more poll. *)
Lemma enter_password_structure (password : string) (w : world) :
  exists f w1,
    within P (2 * Z.to_nat (m + 1) + 2) (Z.to_nat (m + 1)) w w1
    /\ (f = Completed ->
        (polls w1 <= polls w + 2 * Z.to_nat (m + 1) + 1)%nat
        /\ str_in "Password" (term (polls w1 - 1)) = true
        /\ (polls w < polls w1)%nat)
    /\ enter_password term password interval m w
       = Some
           match f with
           | Returned _ => (false, w1)
           | Completed =>
               let denied := str_in "Access denied" (term (polls w1)) in
               (negb denied,
                {| polls := S (polls w1);
                   trace :=
                     (trace w1
                      ++ [KeyWrite password; KeyWrite nl; Sleep (1 # 2);
                          Print (if denied then msg_denied password
                                 else "password has been accepted.")])%list |})
           end.
Proof.
  unfold enter_password, loop_fuel. mstep.
  destruct (password_loop_within (S (Z.to_nat (m + 1))) 0
              {| polls := polls w;
                 trace := (trace w ++ [FindElement "term"])%list |})
    as (f & w1 & Hrun & Hw & Hc & Hr); [lia|].
  replace (m + 1 - 0) with (m + 1) in * by lia. cbn [polls] in Hc.
  exists f, w1. split; [|split; [exact Hc|]].
  - eapply within_weaken;
      [| |eapply (within_trans P 0 0); [|exact Hw]]; [lia | lia | win].
  - rewrite Hrun. destruct f as [b|]; mstep.
    + now rewrite (Hr b eq_refl).
    + destruct (str_in "Access denied" (term (polls w1))); mstep;
        now rewrite <- !app_assoc.
Qed.

Lemma prompt_loop_within (fuel : nat) :
  forall (tries : Z) (w : world),
    (Z.to_nat (m - tries) < fuel)%nat ->
    exists b w',
      prompt_loop term fuel m tries w = Some (b, w')
      /\ within P (2 * (Z.to_nat (m - tries) + 1))
                (Z.to_nat (m - tries) + 1) w w'
      /\ (b = true ->
          str_in ">>>" (term (polls w' - 1)) = true
          /\ (polls w < polls w')%nat).
Proof.
  induction fuel as [|fuel IH]; intros tries w Hf; [lia|].
  cbn [prompt_loop]. mstep.
  destruct (str_in ">>>" (term (polls w))) eqn:HP; mstep.
  { eexists _, _. split; [reflexivity|]. split; [win|].
    intros _. cbn [polls].
    replace (S (polls w) - 1)%nat with (polls w) by lia.
    split; [exact HP | lia]. }
  destruct (tries + 1 >? m) eqn:G; mstep.
  { eexists _, _. split; [reflexivity|]. split; [win | discriminate]. }
  rewrite Z.gtb_ltb in G. apply Z.ltb_ge in G.
  destruct (IH (tries + 1)
              {| polls := S (S (polls w));
                 trace := (trace w ++ [Sleep (1 # 2)])%list |})
    as (b & w' & Hrun & Hw & Hb); [lia|].
  exists b, w'. split; [exact Hrun|]. split.
  - eapply within_weaken;
      [| |eapply (within_trans P 2 1); [|exact Hw]]; [lia | lia | win].
  - intros Hb'. destruct (Hb Hb') as (Hp & Hl). cbn [polls] in Hl.
    split; [exact Hp | lia].
Qed.

(** The prompt stage is the denial guard, the loop and, on success only,
    the key press. *)
Lemma wait_for_repl_prompt_structure (w : world) :
  exists (b : bool) (w1 : world),
    within P (2 * Z.to_nat m + 3) (Z.to_nat m + 1) w w1
    /\ wait_for_repl_prompt term m w
       = Some (b, if b
                  then {| polls := polls w1;
                          trace := (trace w1 ++ [KeyPress "ctrl+b"])%list |}
                  else w1)
    /\ (b = true ->
        str_in "Access denied" (term (polls w)) = false
        /\ str_in ">>>" (term (polls w1 - 1)) = true
        /\ (S (polls w) < polls w1)%nat)
    /\ (str_in "Access denied" (term (polls w)) = true ->
        b = false /\ polls w1 = S (polls w))
    /\ (polls w < polls w1)%nat.
Proof.
  unfold wait_for_repl_prompt, loop_fuel. mstep.
  destruct (str_in "Access denied" (term (polls w))) eqn:HA; mstep.
  { exists false. eexists. split; [|split; [reflexivity|]].
    - win.
    - split; [discriminate|]. split; [auto | cbn [polls]; lia]. }
  destruct (prompt_loop_within (S (Z.to_nat (m + 1))) 0
              {| polls := S (polls w);
                 trace := (trace w ++ [FindElement "term"])%list |})
    as (b & w1 & Hrun & Hw & Hb); [lia|].
  replace (m - 0) with m in * by lia. cbn [polls] in Hb.
  assert (Hlt : (polls w < polls w1)%nat).
  { destruct Hw as (d & _ & _ & L & _). cbn [polls] in L. lia. }
  exists b, w1. split; [|split; [|split; [|split; [discriminate|exact Hlt]]]].
  - eapply within_weaken;
      [| |eapply (within_trans P 1 0); [|exact Hw]]; [lia | lia | win].
  - rewrite Hrun. destruct b; mstep; reflexivity.
  - intros Hb'. destruct (Hb Hb') as (Hp & Hl). auto.
Qed.

End Within.

(* ------------------------------------------------------------------ *)
(** ** What each loop does on a given run of snapshots *)

Section Runs.

Variable term : nat -> string.
Variable interval : duration.
Variable m : Z.

Lemma welcome_loop_found (k : nat) :
  forall (fuel : nat) (tries : Z) (w : world),
    (k < fuel)%nat -> tries + Z.of_nat k <= m + 1 ->
    (forall j, (j < k)%nat ->
       str_in "Welcome" (term (polls w + 2 * j)%nat) = false
       /\ str_in "Disconnected" (term (polls w + 2 * j + 1)%nat) = false) ->
    str_in "Welcome" (term (polls w + 2 * k)%nat) = true ->
    welcome_loop term fuel interval m tries w
    = Some (true,
            {| polls := polls w + (2 * k + 1);
               trace := (trace w ++ repeat (Sleep interval) k
                         ++ [Print "Welcome message found"])%list |}).
Proof.
  induction k as [|k IH]; intros fuel tries w Hf Ht Hno HW;
    (destruct fuel as [|fuel]; [lia|]); cbn [welcome_loop]; mstep.
  - replace (polls w + 2 * 0)%nat with (polls w) in HW by lia.
    rewrite HW. mstep. do 2 f_equal. f_equal. lia.
  - destruct (Hno 0%nat ltac:(lia)) as [H0 H1].
    replace (polls w + 2 * 0)%nat with (polls w) in H0 by lia.
    replace (polls w + 2 * 0 + 1)%nat with (S (polls w)) in H1 by lia.
    rewrite H0. mstep. rewrite gtb_false by lia. mstep. rewrite H1.
    rewrite (IH fuel (tries + 1)); cbn [polls trace]; try lia.
    + do 2 f_equal. f_equal; [lia | now rewrite <- app_assoc].
    + intros j Hj. destruct (Hno (S j) ltac:(lia)) as [A B].
      replace (S (S (polls w)) + 2 * j)%nat
        with (polls w + 2 * S j)%nat by lia.
      split; [exact A | exact B].
    + replace (S (S (polls w)) + 2 * k)%nat
        with (polls w + 2 * S k)%nat by lia.
      exact HW.
Qed.

Lemma password_loop_timeout (k : nat) :
  (forall n, str_in "Password" (term n) = false) ->
  (forall n, str_in "Disconnected" (term n) = false) ->
  forall (fuel : nat) (tries : Z) (w : world),
    (k < fuel)%nat -> tries + Z.of_nat k = m + 1 ->
    password_loop term fuel interval m tries w
    = Some (Returned false,
            {| polls := polls w + (2 * k + 2);
               trace := (trace w ++ repeat (Sleep interval) k
                         ++ [Print (msg_password_timeout m)])%list |}).
Proof.
  intros HP HD. induction k as [|k IH]; intros fuel tries w Hf Ht;
    (destruct fuel as [|fuel]; [lia|]);
    cbn [password_loop]; mstep; rewrite HP; mstep; rewrite HD.
  - rewrite gtb_true by lia. mstep. do 2 f_equal. f_equal. lia.
  - rewrite gtb_false by lia. mstep.
    rewrite (IH fuel (tries + 1)) by lia.
    cbn [polls trace]. do 2 f_equal. f_equal; [lia|].
    now rewrite <- app_assoc.
Qed.


Lemma prompt_loop_timeout (k : nat) :
  (forall n, str_in ">>>" (term n) = false) ->
  forall (fuel : nat) (tries : Z) (w : world),
    (k < fuel)%nat -> tries + Z.of_nat k = m ->
    prompt_loop term fuel m tries w
    = Some (false,
            {| polls := polls w + (2 * k + 2);
               trace := (trace w ++ repeat (Sleep (1 # 2)) (k + 1)
                         ++ [Print (msg_prompt_timeout m)])%list |}).
Proof.
  intros HP. induction k as [|k IH]; intros fuel tries w Hf Ht;
    (destruct fuel as [|fuel]; [lia|]);
    cbn [prompt_loop]; mstep; rewrite HP; mstep.
  - rewrite gtb_true by lia. mstep. do 2 f_equal. f_equal; [lia|].
    now rewrite <- app_assoc.
  - rewrite gtb_false by lia.
    rewrite (IH fuel (tries + 1)) by lia.
    cbn [polls trace]. do 2 f_equal. f_equal; [lia|].
    now rewrite <- app_assoc.
Qed.

Lemma prompt_loop_found (k : nat) :
  forall (fuel : nat) (tries : Z) (w : world),
    (k < fuel)%nat -> tries + Z.of_nat k <= Z.max m tries ->
    (forall j, (j < k)%nat ->
       str_in ">>>" (term (polls w + 2 * j)%nat) = false) ->
    str_in ">>>" (term (polls w + 2 * k)%nat) = true ->
    prompt_loop term fuel m tries w
    = Some (true,
            {| polls := polls w + (2 * k + 1);
               trace := (trace w ++ repeat (Sleep (1 # 2)) k
                         ++ [Print "repl prompt found"])%list |}).
Proof.
  induction k as [|k IH]; intros fuel tries w Hf Ht Hno HW;
    (destruct fuel as [|fuel]; [lia|]); cbn [prompt_loop]; mstep.
  - replace (polls w + 2 * 0)%nat with (polls w) in HW by lia.
    rewrite HW. mstep. do 2 f_equal. f_equal. lia.
  - generalize (Hno 0%nat ltac:(lia)).
    replace (polls w + 2 * 0)%nat with (polls w) by lia.
    intros ->. mstep. rewrite gtb_false by lia.
    rewrite (IH fuel (tries + 1)); cbn [polls trace]; try lia.
    + do 2 f_equal. f_equal; [lia | now rewrite <- app_assoc].
    + intros j Hj.
      replace (S (S (polls w)) + 2 * j)%nat
        with (polls w + 2 * S j)%nat by lia.
      apply Hno. lia.
    + replace (S (S (polls w)) + 2 * k)%nat
        with (polls w + 2 * S k)%nat by lia.
      exact HW.
Qed.

End Runs.

(* ------------------------------------------------------------------ *)
(** ** The stages, one by one *)

Lemma only_waits_no (p : event -> bool) (d : list event) :
  (forall e, only_waits e = true -> p e = false) ->
  forallb only_waits d = true -> filter p d = [].
Proof.
  intros Hp. induction d as [|e d IH]; [reflexivity|].
  cbn [forallb filter]. intros [He Hd]%andb_prop.
  rewrite (Hp e He). now apply IH.
Qed.

Lemma only_waits_no_keywrite (e : event) :
  only_waits e = true -> is_keywrite e = false.
Proof. now destruct e. Qed.

Lemma only_waits_no_keypress (e : event) :
  only_waits e = true -> is_keypress e = false.
Proof. now destruct e. Qed.

Lemma only_waits_no_close (e : event) :
  only_waits e = true -> is_close e = false.
Proof. now destruct e. Qed.

(** X4: for any interval [time.sleep] accepts, the welcome stage succeeds
    on the first loop test that shows
    "Welcome", provided that test is among the first [max_retries + 2] and no
    poll after an earlier sleep showed "Disconnected"; it has then slept once
    per earlier test and read the terminal twice per earlier test plus
    once. *)
Theorem wait_for_welcome_message_found :
  forall (term : nat -> string) (interval : duration) (m : Z) (w : world) (k : nat),
    Z.of_nat k <= m + 1 ->
    (forall j, (j < k)%nat ->
       str_in "Welcome" (term (polls w + 2 * j)%nat) = false
       /\ str_in "Disconnected" (term (polls w + 2 * j + 1)%nat) = false) ->
    str_in "Welcome" (term (polls w + 2 * k)%nat) = true ->
    wait_for_welcome_message term interval m w
    = Some (true,
            {| polls := polls w + (2 * k + 1);
               trace := (trace w ++ [FindElement "term"]
                         ++ repeat (Sleep interval) k
                         ++ [Print "Welcome message found"])%list |}).
Proof.
  intros term interval m w k Hk Hno HW.
  unfold wait_for_welcome_message, loop_fuel. mstep.
  rewrite (welcome_loop_found term interval m k); cbn [polls trace];
    try lia; auto.
  now rewrite <- app_assoc.
Qed.

Lemma wait_for_welcome_message_found_witness :
  wait_for_welcome_message surface_late_welcome half_second 10 w0
  = Some (true,
          {| polls := 23;
             trace := (FindElement "term" :: repeat (Sleep (1 # 2)) 11
                       ++ [Print "Welcome message found"])%list |}).
Proof.
  apply (wait_for_welcome_message_found surface_late_welcome half_second 10 w0 11).
  - lia.
  - intros j Hj. cbn [polls w0]. unfold surface_late_welcome.
    split.
    + destruct (Nat.eqb (0 + 2 * j) 22) eqn:E; [|reflexivity].
      apply Nat.eqb_eq in E. lia.
    + destruct (Nat.eqb (0 + 2 * j + 1) 22); reflexivity.
  - reflexivity.
Defined.

(** X5: for any interval [time.sleep] accepts, the welcome stage always
    returns, after at most
    [2 * max(max_retries + 1, 0) + 1] reads of the terminal and
    [max(max_retries + 1, 0)] sleeps; it only prints, sleeps and looks up the
    terminal element; and it returns [True] only if one of its reads showed
    "Welcome". *)
Theorem wait_for_welcome_message_bounded :
  forall (term : nat -> string) (interval : duration) (m : Z) (w : world),
  exists (b : bool) (w' : world) (d : list event),
    wait_for_welcome_message term interval m w = Some (b, w')
    /\ trace w' = (trace w ++ d)%list
    /\ forallb only_waits d = true
    /\ (polls w <= polls w' <= polls w + (2 * Z.to_nat (m + 1) + 1))%nat
    /\ (count is_sleep d <= Z.to_nat (m + 1))%nat
    /\ (b = true ->
        exists n, (polls w <= n < polls w')%nat
                  /\ str_in "Welcome" (term n) = true).
Proof.
  intros term interval m w.
  destruct (wait_for_welcome_message_within term only_waits interval m
              (fun _ => eq_refl) (fun _ => eq_refl) eq_refl w)
    as (b & w' & Hrun & (d & E & F & L & C) & Hb).
  exists b, w', d. auto 10.
Qed.

Lemma wait_for_welcome_message_bounded_witness :
  exists (w' : world) (n : nat),
    wait_for_welcome_message surface_session half_second 10 w0 = Some (true, w')
    /\ str_in "Welcome" (surface_session n) = true.
Proof.
  destruct (wait_for_welcome_message_bounded surface_session half_second 10 w0)
    as (b & w' & d & Hrun & _ & _ & _ & _ & Hb).
  assert (R : option_map fst
                (wait_for_welcome_message surface_session half_second 10 w0)
              = Some true) by (vm_compute; reflexivity).
  rewrite Hrun in R. cbn in R. injection R as ->.
  destruct (Hb eq_refl) as (n & _ & Hn).
  exists w', n. split; [exact Hrun | exact Hn].
Defined.

(** X6: on a terminal that never shows "Password" nor "Disconnected", for
    [max_retries = m >= 0] and any interval [time.sleep] accepts, the
    password stage types nothing and returns
    [False] with its retries-exceeded message after [m + 1] sleeps and
    [2m + 4] reads of the terminal. *)
Theorem enter_password_timeout :
  forall (term : nat -> string) (password : string) (interval : duration) (m : Z)
         (w : world),
    0 <= m ->
    (forall n, str_in "Password" (term n) = false) ->
    (forall n, str_in "Disconnected" (term n) = false) ->
    enter_password term password interval m w
    = Some (false,
            {| polls := polls w + (2 * (Z.to_nat m + 1) + 2);
               trace := (trace w ++ [FindElement "term"]
                         ++ repeat (Sleep interval) (Z.to_nat m + 1)
                         ++ [Print (msg_password_timeout m)])%list |}).
Proof.
  intros term password interval m w Hm HP HD.
  unfold enter_password, loop_fuel. mstep.
  rewrite (password_loop_timeout term interval m (Z.to_nat m + 1) HP HD)
    by lia.
  mstep. now rewrite <- app_assoc.
Qed.

Lemma enter_password_timeout_witness :
  enter_password surface_silent "secret" half_second 10 w0
  = Some (false,
          {| polls := 24;
             trace := (FindElement "term" :: repeat (Sleep (1 # 2)) 11
                       ++ [Print (msg_password_timeout 10)])%list |}).
Proof.
  apply (enter_password_timeout surface_silent "secret" half_second 10 w0).
  - lia.
  - intros n. reflexivity.
  - intros n. reflexivity.
Defined.





(** X9: on a terminal that never shows ">>>" and whose first snapshot does
    not show "Access denied", and for [max_retries = m >= 0], the prompt
    stage presses no key and returns [False] with its retries-exceeded
    message after [m + 1] sleeps and [2m + 3] reads of the terminal, [m + 1]
    of them loop tests: one loop test fewer than the welcome stage makes. *)
Theorem wait_for_repl_prompt_timeout :
  forall (term : nat -> string) (m : Z) (w : world),
    0 <= m ->
    str_in "Access denied" (term (polls w)) = false ->
    (forall n, str_in ">>>" (term n) = false) ->
    wait_for_repl_prompt term m w
    = Some (false,
            {| polls := polls w + (2 * Z.to_nat m + 3);
               trace := (trace w ++ [FindElement "term"]
                         ++ repeat (Sleep (1 # 2)) (Z.to_nat m + 1)
                         ++ [Print (msg_prompt_timeout m)])%list |}).
Proof.
  intros term m w Hm HA HP.
  unfold wait_for_repl_prompt, loop_fuel. mstep. rewrite HA. mstep.
  rewrite (prompt_loop_timeout term m (Z.to_nat m) HP) by lia.
  mstep. cbn [polls trace]. do 2 f_equal. f_equal; [lia|].
  now rewrite <- app_assoc.
Qed.

Lemma wait_for_repl_prompt_timeout_witness :
  wait_for_repl_prompt surface_silent 10 w0
  = Some (false,
          {| polls := 23;
             trace := (FindElement "term" :: repeat (Sleep (1 # 2)) 11
                       ++ [Print (msg_prompt_timeout 10)])%list |}).
Proof.
  apply (wait_for_repl_prompt_timeout surface_silent 10 w0).
  - lia.
  - reflexivity.
  - intros n. reflexivity.
Defined.

(** X10: when the first snapshot does not show "Access denied" and the
    first loop test showing ">>>" is among the first [max_retries + 1], the
    prompt stage returns [True], and its last effect is the single press of
    ctrl+b. *)
Theorem wait_for_repl_prompt_found :
  forall (term : nat -> string) (m : Z) (w : world) (k : nat),
    Z.of_nat k <= Z.max m 0 ->
    str_in "Access denied" (term (polls w)) = false ->
    (forall j, (j < k)%nat ->
       str_in ">>>" (term (polls w + 1 + 2 * j)%nat) = false) ->
    str_in ">>>" (term (polls w + 1 + 2 * k)%nat) = true ->
    wait_for_repl_prompt term m w
    = Some (true,
            {| polls := polls w + (2 * k + 2);
               trace := (trace w ++ [FindElement "term"]
                         ++ repeat (Sleep (1 # 2)) k
                         ++ [Print "repl prompt found";
                             KeyPress "ctrl+b"])%list |}).
Proof.
  intros term m w k Hk HA Hno HP.
  unfold wait_for_repl_prompt, loop_fuel. mstep. rewrite HA. mstep.
  rewrite (prompt_loop_found term m k); cbn [polls trace]; try lia.
  - mstep. do 2 f_equal. f_equal; [lia|]. now rewrite <- !app_assoc.
  - intros j Hj.
    replace (S (polls w) + 2 * j)%nat with (polls w + 1 + 2 * j)%nat by lia.
    now apply Hno.
  - replace (S (polls w) + 2 * k)%nat with (polls w + 1 + 2 * k)%nat by lia.
    exact HP.
Qed.

Lemma wait_for_repl_prompt_found_witness :
  wait_for_repl_prompt surface_prompt_after_two 10 w0
  = Some (true,
          {| polls := 6;
             trace := [FindElement "term"; Sleep (1 # 2); Sleep (1 # 2);
                       Print "repl prompt found"; KeyPress "ctrl+b"] |}).
Proof.
  apply (wait_for_repl_prompt_found surface_prompt_after_two 10 w0 2).
  - lia.
  - reflexivity.
  - intros j Hj. cbn [polls w0]. unfold surface_prompt_after_two.
    assert (E : Nat.ltb (0 + 1 + 2 * j) 5 = true) by (apply Nat.ltb_lt; lia).
    now rewrite E.
  - reflexivity.
Defined.

(** X11: the prompt stage always returns, after at most
    [2 * max(max_retries, 0) + 3] reads of the terminal.  It presses ctrl+b
    once when it returns [True] and never otherwise; it returns [True] only
    if its first read did not show "Access denied" and its last read showed
    ">>>"; and when the first read shows "Access denied" it returns [False]
    after that single read, even if ">>>" is on screen. *)
Theorem wait_for_repl_prompt_presses_once :
  forall (term : nat -> string) (m : Z) (w : world),
  exists (b : bool) (w' : world) (d : list event),
    wait_for_repl_prompt term m w = Some (b, w')
    /\ trace w' = (trace w ++ d)%list
    /\ (polls w < polls w' <= polls w + (2 * Z.to_nat m + 3))%nat
    /\ filter is_keypress d = (if b then [KeyPress "ctrl+b"] else [])
    /\ filter is_keywrite d = [] /\ filter is_close d = []
    /\ (b = true ->
        str_in "Access denied" (term (polls w)) = false
        /\ str_in ">>>" (term (polls w' - 1)%nat) = true)
    /\ (str_in "Access denied" (term (polls w)) = true ->
        b = false /\ polls w' = S (polls w)).
Proof.
  intros term m w.
  destruct (wait_for_repl_prompt_structure term only_waits m
              (fun _ => eq_refl) (fun _ => eq_refl) eq_refl w)
    as (b & w1 & (d & E & F & L & _) & Hrun & Hb & Ha & Hlt).
  assert (K1 := only_waits_no is_keywrite d only_waits_no_keywrite F).
  assert (K2 := only_waits_no is_keypress d only_waits_no_keypress F).
  assert (K3 := only_waits_no is_close d only_waits_no_close F).
  destruct b.
  - eexists true, _, _. split; [exact Hrun|]. cbn [polls trace].
    split; [rewrite E, <- app_assoc; reflexivity|].
    rewrite !filter_app, K1, K2, K3.
    destruct (Hb eq_refl) as (A & B & C).
    repeat split; try lia; try reflexivity; auto;
      rewrite A in *; discriminate.
  - exists false, w1, d. split; [exact Hrun|].
    repeat split; auto; try lia; try discriminate.
    now destruct (Ha H).
Qed.

Lemma wait_for_repl_prompt_presses_once_witness :
  exists w',
    wait_for_repl_prompt surface_prompt_after_two 10 w0 = Some (true, w')
    /\ str_in ">>>" (surface_prompt_after_two (polls w' - 1)%nat) = true.
Proof.
  destruct (wait_for_repl_prompt_presses_once surface_prompt_after_two 10 w0)
    as (b & w' & d & Hrun & _ & _ & _ & _ & _ & Hb & _).
  assert (R : option_map fst
                (wait_for_repl_prompt surface_prompt_after_two 10 w0)
              = Some true) by (vm_compute; reflexivity).
  rewrite Hrun in R. cbn in R. injection R as ->.
  exists w'. split; [exact Hrun | apply (Hb eq_refl)].
Defined.

(* ------------------------------------------------------------------ *)
(** ** The launcher as a whole *)

Lemma waits_half_facts (d : list event) :
  forallb waits_half d = true ->
  forallb half_second_sleeps d = true
  /\ filter is_keywrite d = [] /\ filter is_keypress d = []
  /\ count is_close d = 0%nat.
Proof.
  intros F.
  assert (F1 : forallb only_waits d = true /\
               forallb half_second_sleeps d = true).
  { induction d as [|e d IH]; [split; reflexivity|].
    cbn [forallb] in *. apply andb_prop in F as [He Hd].
    apply andb_prop in He as [A B]. destruct (IH Hd) as [C D].
    now rewrite A, B, C, D. }
  destruct F1 as [A B]. split; [exact B|].
  split; [now apply (only_waits_no is_keywrite d only_waits_no_keywrite)|].
  split; [now apply (only_waits_no is_keypress d only_waits_no_keypress)|].
  unfold count.
  now rewrite (only_waits_no is_close d only_waits_no_close A).
Qed.

Lemma profile_of_within (np ns : nat) (w w' : world) :
  within waits_half np ns w w' -> profile np ns [] [] 0 w w'.
Proof.
  intros (d & E & F & L & C).
  destruct (waits_half_facts d F) as (A & B & D & G).
  exists d. auto 10.
Qed.

Lemma profile_intro (w : world) (n : nat) (d : list event) :
  (polls w <= n)%nat -> forallb half_second_sleeps d = true ->
  profile (n - polls w) (count is_sleep d) (filter is_keywrite d)
          (filter is_keypress d) (count is_close d)
          w {| polls := n; trace := (trace w ++ d)%list |}.
Proof.
  intros Hn Hd. exists d. cbn [polls trace]. repeat split; auto; lia.
Qed.

Lemma profile_trans (np1 ns1 np2 ns2 : nat) (k1 p1 k2 p2 : list event)
      (c1 c2 : nat) (w1 w2 w3 : world) :
  profile np1 ns1 k1 p1 c1 w1 w2 -> profile np2 ns2 k2 p2 c2 w2 w3 ->
  profile (np1 + np2) (ns1 + ns2) (k1 ++ k2) (p1 ++ p2) (c1 + c2) w1 w3.
Proof.
  intros (d1 & E1 & L1 & S1 & H1 & K1 & P1 & C1)
         (d2 & E2 & L2 & S2 & H2 & K2 & P2 & C2).
  exists (d1 ++ d2)%list.
  rewrite E2, E1, app_assoc, !count_app, !filter_app, forallb_app.
  rewrite H1, H2, K1, K2, P1, P2, C1, C2.
  repeat split; auto; lia.
Qed.

Lemma profile_cast (np ns np' ns' : nat) (k p k' p' : list event)
      (c c' : nat) (w w' : world) :
  profile np ns k p c w w' ->
  (np <= np')%nat -> (ns <= ns')%nat -> k = k' -> p = p' -> c = c' ->
  profile np' ns' k' p' c' w w'.
Proof.
  intros (d & E & L & S & H & K & Pr & C) Hp Hs <- <- <-.
  exists d. repeat split; auto; lia.
Qed.

Lemma waits_half_print (s : string) : waits_half (Print s) = true.
Proof. reflexivity. Qed.

Lemma waits_half_find (s : string) : waits_half (FindElement s) = true.
Proof. reflexivity. Qed.

(** The password stage run by the launcher: at most 24 polls and 12 sleeps,
    and either nothing typed and [False], or the password and a newline. *)
Lemma enter_password_profile (term : nat -> string) (password : string)
      (w : world) :
  exists (b : bool) (w' : world) (keys : list event),
    enter_password term password half_second 10 w = Some (b, w')
    /\ profile 24 12 keys [] 0 w w'
    /\ ((keys = [] /\ b = false)
        \/ keys = [KeyWrite password; KeyWrite nl]).
Proof.
  destruct (enter_password_structure term waits_half half_second 10
              waits_half_print waits_half_find eq_refl password w)
    as (f & w1 & Hw & Hc & Hrun).
  change (Z.to_nat (10 + 1)) with 11%nat in *.
  apply profile_of_within in Hw.
  destruct f as [b|].
  - exists false, w1, []. split; [exact Hrun|]. split; [|now left].
    apply (profile_cast _ _ _ _ _ _ _ _ _ _ _ _ Hw); auto; lia.
  - destruct (Hc eq_refl) as (Hb & _ & _).
    eexists _, _, _. split; [exact Hrun|]. split; [|now right].
    cbv zeta.
    destruct Hw as (d & E & L & Hs & H & K & Pr & C).
    exists (d ++ [KeyWrite password; KeyWrite nl; Sleep (1 # 2);
                  Print (if str_in "Access denied" (term (polls w1))
                         then msg_denied password
                         else "password has been accepted.")])%list.
    cbn [polls trace].
    rewrite E, <- app_assoc, !count_app, !filter_app, forallb_app.
    rewrite H, K, Pr, C.
    match goal with
    | |- context [count is_sleep (?a :: ?l)] =>
        change (count is_sleep (a :: l)) with 1%nat
    end.
    repeat split; try reflexivity; try lia.
Qed.

(** The prompt stage run by the launcher. *)
Lemma wait_for_repl_prompt_profile (term : nat -> string) (w : world) :
  exists (b : bool) (w' : world),
    wait_for_repl_prompt term 10 w = Some (b, w')
    /\ profile 23 11 [] (if b then [KeyPress "ctrl+b"] else []) 0 w w'.
Proof.
  destruct (wait_for_repl_prompt_structure term waits_half 10
              waits_half_print waits_half_find eq_refl w)
    as (b & w1 & Hw & Hrun & _).
  change (Z.to_nat 10) with 10%nat in *.
  apply profile_of_within in Hw.
  eexists b, _. split; [exact Hrun|].
  destruct b.
  - eapply profile_cast;
      [eapply profile_trans; [exact Hw | apply profile_intro]
      | .. ]; cbn [polls]; try reflexivity; try lia.
  - apply (profile_cast _ _ _ _ _ _ _ _ _ _ _ _ Hw); auto; lia.
Qed.

Lemma wait_for_welcome_message_profile (term : nat -> string) (w : world) :
  exists (b : bool) (w' : world),
    wait_for_welcome_message term half_second 10 w = Some (b, w')
    /\ profile 23 11 [] [] 0 w w'.
Proof.
  destruct (wait_for_welcome_message_within term waits_half half_second 10
              waits_half_print waits_half_find eq_refl w)
    as (b & w' & Hrun & Hw & _).
  change (Z.to_nat (10 + 1)) with 11%nat in *.
  exists b, w'. split; [exact Hrun|]. now apply profile_of_within.
Qed.

Lemma profile_closed (w : world) : profile 0 0 [] [] 1 w (closed w).
Proof.
  exists [BrowserClose]. cbn. repeat split; auto; lia.
Qed.

(** Whatever the terminal shows, the launcher returns after at most 70
    polls and 34 sleeps of half a second; it types nothing or the password
    and a newline, presses ctrl+b exactly when it returns the browser, and
    closes the browser exactly when it returns [None]. *)
Lemma launcher_profile (term : nat -> string) (page : option string)
      (url password : string) (w : world) :
  exists (r : handle) (w' : world) (keys : list event),
    start_webrepl_with_selenium term page url password w = Some (r, w')
    /\ profile 70 34 keys (presses_of r) (closes_of r) w w'
    /\ (keys = [] \/ keys = [KeyWrite password; KeyWrite nl])
    /\ (r = RetBrowser -> keys = [KeyWrite password; KeyWrite nl])
    /\ (r = RetFalse <-> page = None).
Proof.
  destruct page as [text|].
  2:{ eexists RetFalse, _, []. split; [apply launcher_no_page|].
      split; [|split; [now left | split; [discriminate | now split]]].
      eapply profile_cast; [apply profile_intro | ..];
        cbn [polls]; try reflexivity; try lia. cbn. lia. }
  destruct (launcher_cases term text url password w)
    as (ws & b1 & w1 & Ho & Ts & Ps & H1 & _ & C1).
  assert (P0 : profile 0 0 [] [] 0 w ws).
  { exists (session_opening webrepl_client url).
    rewrite Ts, Ps. cbn. repeat split; auto; lia. }
  destruct (wait_for_welcome_message_profile term ws) as (b1' & w1' & H1' & P1).
  rewrite H1 in H1'. injection H1' as <- <-.
  assert (P01 := profile_trans _ _ _ _ _ _ _ _ _ _ _ _ _ P0 P1).
  destruct C1 as [[-> Hr] | [-> (b2 & w2 & H2 & _ & _ & C2)]].
  { exists RetNone, (closed w1), []. split; [exact Hr|].
    split; [|split; [now left | split; [discriminate | split; discriminate]]].
    eapply profile_cast;
      [eapply profile_trans; [exact P01 | apply profile_closed] | ..];
      try reflexivity; lia. }
  destruct (enter_password_profile term password w1)
    as (b2' & w2' & keys & H2' & P2 & K2).
  rewrite H2 in H2'. injection H2' as <- <-.
  assert (P02 := profile_trans _ _ _ _ _ _ _ _ _ _ _ _ _ P01 P2).
  assert (Kd : keys = [] \/ keys = [KeyWrite password; KeyWrite nl])
    by (destruct K2 as [[-> _] | ->]; auto).
  destruct C2 as [[-> Hr] | [-> (b3 & w3 & H3 & _ & C3)]].
  { exists RetNone, (closed w2), keys. split; [exact Hr|].
    split; [|split; [exact Kd | split; [discriminate | split; discriminate]]].
    eapply profile_cast;
      [eapply profile_trans; [exact P02 | apply profile_closed] | ..];
      try reflexivity; try lia.
    cbn. now rewrite app_nil_r. }
  assert (Kt : keys = [KeyWrite password; KeyWrite nl])
    by (destruct K2 as [[_ ?] | ->]; [discriminate | reflexivity]).
  destruct (wait_for_repl_prompt_profile term w2) as (b3' & w3' & H3' & P3).
  rewrite H3 in H3'. injection H3' as <- <-.
  assert (P03 := profile_trans _ _ _ _ _ _ _ _ _ _ _ _ _ P02 P3).
  destruct C3 as [[-> Hr] | [-> Hr]].
  - exists RetNone, (closed w3), keys. split; [exact Hr|].
    split; [|split; [exact Kd | split; [discriminate | split; discriminate]]].
    eapply profile_cast;
      [eapply profile_trans; [exact P03 | apply profile_closed] | ..];
      try reflexivity; try lia.
    cbn. now rewrite !app_nil_r.
  - exists RetBrowser, w3, keys. split; [exact Hr|].
    split; [|split; [exact Kd | split; [auto | split; discriminate]]].
    eapply profile_cast; [exact P03 | ..]; try reflexivity; try lia.
    cbn. now rewrite app_nil_r.
Qed.




(** X13: in every run of the launcher, ctrl+b is pressed once when the
    browser is returned and never otherwise, and the keys typed are either
    none or the password followed by a newline, once; they are the latter
    whenever the browser is returned. *)
Theorem launcher_keystrokes :
  forall (term : nat -> string) (page : option string) (url password : string)
         (w : world),
  exists (r : handle) (w' : world) (d : list event),
    start_webrepl_with_selenium term page url password w = Some (r, w')
    /\ trace w' = (trace w ++ d)%list
    /\ filter is_keypress d
       = match r with RetBrowser => [KeyPress "ctrl+b"] | _ => [] end
    /\ (filter is_keywrite d = []
        \/ filter is_keywrite d = [KeyWrite password; KeyWrite nl])
    /\ (r = RetBrowser ->
        filter is_keywrite d = [KeyWrite password; KeyWrite nl]).
Proof.
  intros term page url password w.
  destruct (launcher_profile term page url password w)
    as (r & w' & keys & Hrun & (d & E & _ & _ & _ & K & Pr & _) & Kd & Kr & _).
  exists r, w', d. rewrite K, Pr. repeat split; auto.
Qed.

Lemma launcher_keystrokes_witness :
  exists (w' : world),
    start_webrepl_with_selenium surface_session (Some page_lf)
      "ws://192.168.1.5:8266/" "secret" w0 = Some (RetBrowser, w')
    /\ filter is_keywrite (trace w') = [KeyWrite "secret"; KeyWrite nl].
Proof.
  destruct (launcher_keystrokes surface_session (Some page_lf)
              "ws://192.168.1.5:8266/" "secret" w0)
    as (r & w' & d & Hrun & Ht & _ & _ & Hk).
  assert (R : option_map fst
                (start_webrepl_with_selenium surface_session (Some page_lf)
                   "ws://192.168.1.5:8266/" "secret" w0) = Some RetBrowser)
    by (vm_compute; reflexivity).
  rewrite Hrun in R. cbn in R. injection R as ->.
  exists w'. split; [exact Hrun|]. rewrite Ht. exact (Hk eq_refl).
Defined.

(** X14: when the terminal shows "Welcome" at the launcher's first read,
    "Password" at the second, no "Access denied" at the third and fourth and
    ">>>" at the fifth, the launcher returns the browser after exactly these
    five reads, having submitted the URL, typed the password and a newline,
    slept once and pressed ctrl+b last. *)
Theorem launcher_session :
  forall (term : nat -> string) (text url password : string) (w : world),
    str_in "Welcome" (term (polls w)) = true ->
    str_in "Password" (term (polls w + 1)%nat) = true ->
    str_in "Access denied" (term (polls w + 2)%nat) = false ->
    str_in "Access denied" (term (polls w + 3)%nat) = false ->
    str_in ">>>" (term (polls w + 4)%nat) = true ->
    start_webrepl_with_selenium term (Some text) url password w
    = Some (RetBrowser,
            {| polls := polls w + 5;
               trace :=
                 (trace w
                  ++ [ChromeStart; BrowserGet webrepl_client;
                      FindElement "url"; ElementClear; SendKeys url;
                      SendReturn;
                      FindElement "term"; Print "Welcome message found";
                      FindElement "term"; KeyWrite password; KeyWrite nl;
                      Sleep (1 # 2); Print "password has been accepted.";
                      FindElement "term"; Print "repl prompt found";
                      KeyPress "ctrl+b"])%list |}).
Proof.
  intros term text url password [p t] H0 H1 H2 H3 H4. cbn [polls trace] in *.
  replace (p + 1)%nat with (S p) in H1 by lia.
  replace (p + 2)%nat with (S (S p)) in H2 by lia.
  replace (p + 3)%nat with (S (S (S p))) in H3 by lia.
  replace (p + 4)%nat with (S (S (S (S p)))) in H4 by lia.
  unfold start_webrepl_with_selenium. cbn [find_webrepl_html_file].
  change (is_empty webrepl_client) with false. mstep.
  rewrite app_nil_r, open_session_run. cbn [polls trace].
  unfold wait_for_welcome_message. change (loop_fuel 10) with 12%nat.
  cbn [welcome_loop]. mstep. rewrite H0. mstep.
  unfold enter_password. change (loop_fuel 10) with 12%nat.
  cbn [password_loop]. mstep. rewrite H1. mstep. rewrite H2. mstep.
  unfold wait_for_repl_prompt. change (loop_fuel 10) with 12%nat.
  mstep. rewrite H3. mstep.
  cbn [prompt_loop]. mstep. rewrite H4. mstep.
  do 2 f_equal. f_equal; [lia|].
  unfold session_opening. now rewrite <- !app_assoc.
Qed.

Lemma launcher_session_witness :
  exists w',
    start_webrepl_with_selenium surface_quick_session (Some page_lf)
      "ws://192.168.1.5:8266/" "secret" w0
    = Some (RetBrowser, w')
    /\ polls w' = 5%nat.
Proof.
  eexists. split.
  - apply (launcher_session surface_quick_session page_lf
             "ws://192.168.1.5:8266/" "secret" w0); reflexivity.
  - reflexivity.
Defined.

(* ------------------------------------------------------------------ *)
(** ** [main] *)

Lemma launcher_ready_iff (term : nat -> string) (text url password : string)
      (w w3 : world) :
  start_webrepl_with_selenium term (Some text) url password w
  = Some (RetBrowser, w3)
  <-> handshake_ready term webrepl_client url password w w3.
Proof.
  destruct (launcher_cases term text url password w)
    as (ws & b1 & w1 & Ho & _ & _ & H1 & _ & C1).
  split.
  - intros Hrun.
    destruct C1 as [[_ Hr] | [-> (b2 & w2 & H2 & _ & _ & C2)]];
      [rewrite Hr in Hrun; discriminate|].
    destruct C2 as [[_ Hr] | [-> (b3 & w3' & H3 & _ & C3)]];
      [rewrite Hr in Hrun; discriminate|].
    destruct C3 as [[_ Hr] | [-> Hr]];
      [rewrite Hr in Hrun; discriminate|].
    rewrite Hr in Hrun. injection Hrun as <-.
    now exists ws, w1, w2.
  - intros (ws' & w1' & w2' & Ho' & H1' & H2' & H3').
    rewrite Ho in Ho'. injection Ho' as <-.
    rewrite H1 in H1'. injection H1' as -> <-.
    destruct C1 as [[E _] | [_ (b2 & w2 & H2 & _ & _ & C2)]]; [discriminate|].
    rewrite H2 in H2'. injection H2' as -> <-.
    destruct C2 as [[E _] | [_ (b3 & w3' & H3 & _ & C3)]]; [discriminate|].
    rewrite H3 in H3'. injection H3' as -> <-.
    destruct C3 as [[E _] | [_ Hr]]; [discriminate | exact Hr].
Qed.



(** X16: with the page on disk, [main] returns normally and leaves the
    browser open exactly when the address resolves, all three stages of the
    handshake succeed and the snapshot [main] then reads does not show
    "Disconnected". *)
Theorem main_leaves_browser_open_iff :
  forall (term : nat -> string) (text ip : string) (port : pyval)
         (password : string) (w : world),
  exists (r : result unit) (w' : world) (d : list event),
    main term (Some text) ip port password w = Some (r, w')
    /\ trace w' = (trace w ++ d)%list
    /\ ((r = Ok tt /\ count is_close d = 0%nat)
        <-> exists url w3,
              ip_to_url ip port = Ok url
              /\ handshake_ready term webrepl_client url password w w3
              /\ str_in "Disconnected" (term (polls w3)) = false).
Proof.
  intros term text ip port password w.
  unfold main. destruct (ip_to_url ip port) as [url|e] eqn:E.
  2:{ exists (Raise e), w, []. unfold ret. rewrite app_nil_r.
      split; [reflexivity|]. split; [reflexivity|]. split.
      - intros [H _]. discriminate.
      - intros (url & w3 & H & _). discriminate. }
  mstep.
  destruct (launcher_profile term (Some text) url password w)
    as (r & w1 & keys & Hrun & (d & Et & _ & _ & _ & _ & _ & C) & _ & _ & Hf).
  rewrite Hrun.
  assert (Hready := launcher_ready_iff term text url password w).
  destruct r; cbn [closes_of] in C.
  - discriminate (proj1 Hf eq_refl).
  - exists (Ok tt), w1, d. mstep.
    split; [reflexivity|]. split; [exact Et|]. split.
    + intros [_ H]. lia.
    + intros (url' & w3 & [= <-] & Hr & _).
      apply Hready in Hr. rewrite Hrun in Hr. discriminate.
  - mstep. destruct (str_in "Disconnected" (term (polls w1))) eqn:HD; mstep.
    + eexists (Ok tt), _, _. split; [reflexivity|]. cbn [polls trace].
      split; [rewrite Et, <- !app_assoc; reflexivity|].
      rewrite count_app, C. split.
      * intros [_ H]. cbn in H. discriminate.
      * intros (url' & w3 & [= <-] & Hr & Hd).
        apply Hready in Hr. rewrite Hrun in Hr. injection Hr as <-.
        rewrite HD in Hd. discriminate.
    + eexists (Ok tt), _, _. split; [reflexivity|]. cbn [polls trace].
      split; [rewrite Et, <- !app_assoc; reflexivity|].
      rewrite count_app, C. split.
      * intros _. exists url, w1. split; [reflexivity|].
        split; [now apply Hready | exact HD].
      * intros _. split; reflexivity.
Qed.

Lemma main_leaves_browser_open_iff_witness :
  exists w',
    main surface_session (Some page_lf) "192.168.1.5" (PyStr "8266")
      "secret" w0
    = Some (Ok tt, w')
    /\ count is_close (trace w') = 0%nat.
Proof.
  destruct (main_leaves_browser_open_iff surface_session page_lf
              "192.168.1.5" (PyStr "8266") "secret" w0)
    as (r & w' & d & Hrun & Ht & Hiff).
  assert (H : r = Ok tt /\ count is_close d = 0%nat).
  { apply Hiff. eexists _, _. split; [reflexivity|]. split.
    - eexists _, _, _.
      split; [apply open_session_run|].
      split; [cbv; reflexivity|].
      split; cbv; reflexivity.
    - reflexivity. }
  destruct H as [-> Hc]. exists w'. split; [exact Hrun|].
  rewrite Ht. exact Hc.
Defined.

(* ------------------------------------------------------------------ *)
(** ** Provisioning again with another address *)

Lemma rewrite_line_twice (url1 url2 line : string) :
  rewrite_line url2 (rewrite_line url1 line) = rewrite_line url2 line.
Proof.
  rewrite (rewrite_line_cases url1 line).
  destruct (startswith line input_prefix) eqn:E; [|reflexivity].
  rewrite (rewrite_line_cases url2 line), E.
  unfold rewrite_line, input_line. now rewrite startswith_app.
Qed.

Lemma provision_failed (os : platform) (page : option string) (ip : string) :
  ip = "" \/ ip_to_url ip (PyStr "") = Raise ValueError ->
  provision os page ip = page.
Proof.
  intros H. destruct page as [file|]; [|reflexivity].
  unfold provision, start_webrepl_html. cbn [find_webrepl_html_file].
  change (is_empty webrepl_client) with false. cbv iota.
  destruct ip as [|a ip]; [reflexivity|]. cbn [is_empty].
  destruct H as [H|H]; [discriminate|]. now rewrite H.
Qed.

(** X17: the last provisioning wins.  For a page and two addresses made of
    7-bit characters: after a provisioning with an address free of line
    breaks, a successful provisioning with a second address leaves the file
    exactly as that second provisioning alone would have left the original
    page. *)
Theorem provision_last_address_wins :
  forall (os : platform) (page : option string) (ip1 ip2 url2 : string),
    (forall file, page = Some file -> seven_bit file = true) ->
    seven_bit ip1 = true -> seven_bit ip2 = true ->
    str_in nl ip1 = false -> str_in cr ip1 = false ->
    ip2 <> "" -> ip_to_url ip2 (PyStr "") = Ok url2 ->
    provision os (provision os page ip1) ip2 = provision os page ip2.
Proof.
  intros os page ip1 ip2 url2 _ _ _ Hnl Hcr Hne Hurl2.
  assert (Hip2 : is_empty ip2 = false)
    by (destruct ip2; [contradiction | reflexivity]).
  destruct page as [file|]; [|reflexivity].
  destruct (is_empty ip1) eqn:Hip1.
  { rewrite (provision_failed os (Some file) ip1); [reflexivity|].
    left. destruct ip1; [reflexivity | discriminate]. }
  destruct (ip_to_url ip1 (PyStr "")) as [url1|[]] eqn:Hurl1.
  2:{ rewrite (provision_failed os (Some file) ip1); auto. }
  assert (Unl : str_in nl url1 = false)
    by (apply (url_char_free "010" ip1 url1); auto).
  assert (Ucr : str_in cr url1 = false)
    by (apply (url_char_free "013" ip1 url1); auto).
  rewrite (provision_page os file ip1 url1 Hip1 Hurl1).
  rewrite !(provision_page os _ ip2 url2 Hip2 Hurl2).
  f_equal. rewrite !written_joined. f_equal.
  rewrite read_write_text.
  - rewrite readlines_joined
      by (apply rewrite_lines_ok; [exact Unl | apply readlines_ok]).
    rewrite map_map. f_equal. apply map_ext. intros l.
    apply rewrite_line_twice.
  - apply rewrite_lines_no_cr; [exact Ucr|].
    rewrite joined_readlines. apply universal_newlines_no_cr.
Qed.

Lemma provision_last_address_wins_witness :
  provision Posix (provision Posix (Some page_three_lines) "10.0.0.7:4242")
    "192.168.1.5"
  = provision Posix (Some page_three_lines) "192.168.1.5".
Proof.
  apply (provision_last_address_wins Posix (Some page_three_lines)
           "10.0.0.7:4242" "192.168.1.5" "ws://192.168.1.5:8266/");
    try reflexivity.
  - intros file [= <-]. reflexivity.
  - discriminate.
Defined.
